(** * mcpdoc: the documentation gateway of [mcpdoc/main.py]

    A shallow embedding of [create_server] and of the tools it registers
    ([list_doc_sources], [fetch_docs], [query_external_docs_smart],
    [list_external_docs], [add_doc_source], [remove_doc_source]), followed
    by the properties of the registry, of its two allow-sets and of the
    fetch pipeline.

    Python [str] is modelled by [string]; a character is one [ascii] value.
    Python [set] is modelled by [gset string]; the order in which Python
    iterates over a set is not specified, and [elements] plays that role.

    The transport and the file system are oracles of a [World]: a GET
    yields a response, or raises [httpx.RequestError], or is refused by
    httpx with [httpx.InvalidURL] before any request is sent, and
    [raise_for_status] raises [httpx.HTTPStatusError]; reading a file
    yields its content or raises.  [markdownify] is a total function.  A
    tool is a computation in the monad [M], which threads the registry,
    records the GETs and the files opened, and propagates exceptions. *)

From Stdlib Require Import Ascii NArith DecimalString.
From stdpp Require Import base list strings gmap.

Local Open Scope char_scope.
Local Open Scope stdpp_scope.

(** ** Python string primitives used by the source *)

Module Py.

(** [s.startswith(p)] *)
Definition startswith (s p : string) : bool := String.prefix p s.

(** [s[n:]] *)
Fixpoint drop (n : nat) (s : string) : string :=
  match n, s with
  | S n', String _ s' => drop n' s'
  | _, _ => s
  end.

(** [s[:n]] *)
Fixpoint take (n : nat) (s : string) : string :=
  match n, s with
  | S n', String c s' => String c (take n' s')
  | _, _ => ""
  end.

(** [s.find(c)] for a one-character [c]; [None] stands for [-1]. *)
Fixpoint find (c : ascii) (s : string) : option nat :=
  match s with
  | "" => None
  | String a s' => if Ascii.eqb a c then Some 0 else S <$> find c s'
  end.

(** [c in s] for a one-character [c]. *)
Definition has (c : ascii) (s : string) : bool :=
  match find c s with Some _ => true | None => false end.

(** [all(p(c) for c in s)] *)
Fixpoint all (p : ascii → bool) (s : string) : bool :=
  match s with
  | "" => true
  | String a s' => p a && all p s'
  end.

(** The longest prefix of [s] whose characters fail [stop], and the rest. *)
Fixpoint span (stop : ascii → bool) (s : string) : string * string :=
  match s with
  | "" => ("", "")
  | String a s' =>
      if stop a then ("", s)
      else let '(u, v) := span stop s' in (String a u, v)
  end.

(** [s.lstrip(chars)], the character class given as a predicate. *)
Fixpoint lstrip (p : ascii → bool) (s : string) : string :=
  match s with
  | "" => ""
  | String a s' => if p a then lstrip p s' else s
  end.

(** [s.rstrip(chars)] *)
Definition rstrip (p : ascii → bool) (s : string) : string :=
  String.rev (lstrip p (String.rev s)).

(** [s.strip(chars)] *)
Definition strip (p : ascii → bool) (s : string) : string :=
  rstrip p (lstrip p s).

(** Removal of every character satisfying [p]: the effect of
    [s.replace(b, '')] for each one-character [b] of the class. *)
Fixpoint remove (p : ascii → bool) (s : string) : string :=
  match s with
  | "" => ""
  | String a s' => if p a then remove p s' else String a (remove p s')
  end.

(** [sub in s] *)
Fixpoint contains (sub s : string) : bool :=
  String.prefix sub s ||
  match s with
  | "" => false
  | String _ s' => contains sub s'
  end.

(** [sep.join(l)] *)
Definition join (sep : string) (l : list string) : string :=
  String.concat sep l.

Definition code (c : ascii) : N := N_of_ascii c.

(** [c.isascii()] *)
Definition isascii (c : ascii) : bool := (code c <? 128)%N.

Definition isupper_ascii (c : ascii) : bool :=
  (65 <=? code c)%N && (code c <=? 90)%N.
Definition islower_ascii (c : ascii) : bool :=
  (97 <=? code c)%N && (code c <=? 122)%N.
Definition isdigit_ascii (c : ascii) : bool :=
  (48 <=? code c)%N && (code c <=? 57)%N.

(** [c.isascii() and c.isalpha()] *)
Definition isalpha_ascii (c : ascii) : bool :=
  isupper_ascii c || islower_ascii c.

Definition lower_char (c : ascii) : ascii :=
  if isupper_ascii c then ascii_of_N (code c + 32) else c.

(** [s.lower()], on the ASCII letters. *)
Fixpoint lower (s : string) : string :=
  match s with
  | "" => ""
  | String a s' => String (lower_char a) (lower s')
  end.

(** [c.isspace()] on the code points below 256; also the class [\s] of
    [re] for [str] patterns. *)
Definition isspace (c : ascii) : bool :=
  let n := code c in
  ((9 <=? n) && (n <=? 13) || (28 <=? n) && (n <=? 32)
   || (n =? 133) || (n =? 160))%N.

(** [str(n)] for a non-negative integer. *)
Definition str_of_nat (n : nat) : string :=
  NilZero.string_of_uint (Nat.to_uint n).

End Py.

(** ** [urllib.parse]: the part of [urlparse] that [extract_domain] reads *)

(** Exceptions that the modelled code raises or catches. *)
Inductive exn : Type :=
  | ValueError (msg : string)
  | FileNotFoundError (msg : string)
  | HTTPStatusError (msg : string)
  | RequestError (msg : string)
  | InvalidURL (msg : string)
  | OtherError (msg : string).

Global Instance exn_eq_dec : EqDecision exn.
Proof. solve_decision. Defined.

(** [str(e)] *)
Definition exn_str (e : exn) : string :=
  match e with
  | ValueError m | FileNotFoundError m | HTTPStatusError m
  | RequestError m | InvalidURL m | OtherError m => m
  end.

(** Library functions whose bodies are outside the repository are taken as
    parameters of the development. *)
Record Library : Type := {
  (** The validation by [urllib.parse] of a netloc that has both an opening
      and a closing square bracket (an IPv6 or IPvFuture host): the message
      of the [ValueError] it raises, if any. *)
  check_bracketed_netloc : string → option string;
  (** The NFKC test of [urllib.parse._checknetloc] on a netloc that is not
      ASCII: the message of the [ValueError] it raises, if any. *)
  checknetloc_nfkc : string → option string;
  (** [os.path.abspath], for the working directory of the process. *)
  abspath : string → string;
  (** [markdownify.markdownify] *)
  markdownify : string → string;
  (** [repr] of a [str], as the f-string of a set of strings prints each
      member. *)
  repr : string → string;
}.

Module Url.

(** [_WHATWG_C0_CONTROL_OR_SPACE] *)
Definition c0_control_or_space (c : ascii) : bool := (Py.code c <=? 32)%N.

(** [_UNSAFE_URL_BYTES_TO_REMOVE]: tab, carriage return, line feed. *)
Definition unsafe_byte (c : ascii) : bool :=
  let n := Py.code c in ((n =? 9) || (n =? 13) || (n =? 10))%N.

(** [scheme_chars]: ASCII letters, digits and [+-.]. *)
Definition scheme_char (c : ascii) : bool :=
  Py.isalpha_ascii c || Py.isdigit_ascii c
  || Ascii.eqb c "+" || Ascii.eqb c "-" || Ascii.eqb c ".".

(** The delimiters that end a netloc in [_splitnetloc]. *)
Definition netloc_delim (c : ascii) : bool :=
  Ascii.eqb c "/" || Ascii.eqb c "?" || Ascii.eqb c "#".

(** The scheme step of [urlsplit]: the scheme found (or the empty string) and the
    rest of the url. *)
Definition split_scheme (url : string) : string * string :=
  match Py.find ":" url, url with
  | Some (S i), String c0 _ =>
      if Py.isalpha_ascii c0 && Py.all scheme_char (Py.take (S i) url)
      then (Py.lower (Py.take (S i) url), Py.drop (S (S i)) url)
      else ("", url)
  | _, _ => ("", url)
  end.

(** The netloc step: [_splitnetloc(url, 2)] when the rest starts with
    two slashes. *)
Definition split_netloc (rest : string) : string :=
  if Py.startswith rest "//" then fst (Py.span netloc_delim (Py.drop 2 rest))
  else "".

Section WithLibrary.
Variable L : Library.

(** The bracket checks that [urlsplit] runs on a netloc introduced by
    two slashes; [Some m] stands for [raise ValueError(m)]. *)
Definition check_brackets (netloc : string) : option string :=
  let lb := Py.has "[" netloc in
  let rb := Py.has "]" netloc in
  if (lb && negb rb) || (rb && negb lb) then Some "Invalid IPv6 URL"
  else if lb && rb then check_bracketed_netloc L netloc
  else None.

(** [_checknetloc]: returns at once on an empty or ASCII netloc. *)
Definition checknetloc (netloc : string) : option string :=
  if String.eqb netloc "" || Py.all Py.isascii netloc then None
  else checknetloc_nfkc L netloc.

(** [urlparse(url)], reduced to the two fields read by the source:
    [(scheme, netloc)]. *)
Definition urlparse (url : string) : exn + (string * string) :=
  let url := Py.lstrip c0_control_or_space url in
  let url := Py.remove unsafe_byte url in
  let '(scheme, rest) := split_scheme url in
  let netloc := split_netloc rest in
  match (if Py.startswith rest "//" then check_brackets netloc else None) with
  | Some m => inl (ValueError m)
  | None =>
      match checknetloc netloc with
      | Some m => inl (ValueError m)
      | None => inr (scheme, netloc)
      end
  end.
End WithLibrary.

End Url.

(** ** [extract_domain], [_is_http_or_https], [_normalize_path] *)

Section Utilities.
Variable L : Library.

Definition extract_domain (url : string) : exn + string :=
  match Url.urlparse L url with
  | inl e => inl e
  | inr (scheme, netloc) => inr (scheme +:+ "://" +:+ netloc +:+ "/")
  end.

Definition _is_http_or_https (url : string) : bool :=
  Py.startswith url "http:" || Py.startswith url "https:".

Definition _normalize_path (path : string) : string :=
  if Py.startswith path "file://" then abspath L (Py.drop 7 path)
  else abspath L path.
End Utilities.

(** ** [re.findall] for the two patterns of the source *)

Module Re.

(** [re.findall]: leftmost matches that do not overlap.  [m s] tells
    whether the pattern matches at the start of [s]: the value that
    [findall] reports and the length of the match, which is positive for
    both patterns.  [skip] counts the characters of the current match
    that are still to be passed. *)
Fixpoint findall_from (m : string → option (string * nat))
    (skip : nat) (s : string) : list string :=
  match skip with
  | S k =>
      match s with
      | "" => []
      | String _ s' => findall_from m k s'
      end
  | 0 =>
      match m s, s with
      | Some (v, n), String _ s' => v :: findall_from m (Nat.pred n) s'
      | _, String _ s' => findall_from m 0 s'
      | _, "" => []
      end
  end.

Definition findall (m : string → option (string * nat)) (s : string)
    : list string :=
  findall_from m 0 s.

(** The double quote, written [Q] in the comments below. *)
Definition dquote : ascii := "034".

(** The pattern [href=Q], a group of any number of characters other
    than [Q], then [Q]: the group is reported. *)
Definition href (s : string) : option (string * nat) :=
  if Py.startswith s (String "h" (String "r" (String "e" (String "f"
                       (String "=" (String dquote ""))))))
  then
    match Py.span (Ascii.eqb dquote) (Py.drop 6 s) with
    | (v, String _ _) => Some (v, 6 + String.length v + 1)
    | (_, "") => None
    end
  else None.

(** The characters that end a bare url: white space, a closing
    parenthesis, a closing square bracket. *)
Definition url_stop (c : ascii) : bool :=
  Py.isspace c || Ascii.eqb c ")" || Ascii.eqb c "]".

(** The pattern [https?://] followed by one or more characters that do
    not end a bare url: the whole match is reported. *)
Definition http_url (s : string) : option (string * nat) :=
  let k := if Py.startswith s "https://" then Some 8
           else if Py.startswith s "http://" then Some 7 else None in
  match k with
  | Some k =>
      match fst (Py.span url_stop (Py.drop k s)) with
      | "" => None
      | v => Some (Py.take k s +:+ v, k + String.length v)
      end
  | None => None
  end.

End Re.

(** ** The registry and the world around it *)

(** [DocSource]: [name] and [description] are [NotRequired]. *)
Record DocSource : Type := {
  name : option string;
  llms_txt : string;
  description : option string;
}.

Global Instance DocSource_eq_dec : EqDecision DocSource.
Proof. solve_decision. Defined.

(** The variables that the tools of [create_server] close over. *)
Record Registry : Type := {
  doc_sources : list DocSource;
  domains : gset string;
  allowed_local_files : gset string;
}.

(** What a tool does to the outside: a GET, or the opening of a file. *)
Inductive event : Type :=
  | EvGet (url : string)
  | EvOpen (path : string).

(** An [httpx.Response]: [status_error] is the message of the
    [HTTPStatusError] that [raise_for_status] raises, if the status is not
    a success. *)
Record response : Type := {
  status_error : option string;
  text : string;
}.

(** Why [httpx_client.get] gives no response. *)
Inductive get_failure : Type :=
  (** [httpx.InvalidURL]: httpx refuses the url when it parses it, before
      any request is sent.  It is an [Exception] and not a
      [httpx.RequestError]. *)
  | UrlRefused (msg : string)
  (** [httpx.RequestError]: the request was attempted and failed. *)
  | RequestFailed (msg : string).

(** The outside world.  An answer may depend on what was done before, so
    each oracle receives the events so far. *)
Record World : Type := {
  (** [httpx_client.get]: a response, or the failure with the message of
      the exception raised. *)
  http_get : list event → string → get_failure + response;
  (** [open(path).read()]: the content, or the message of the exception. *)
  read_file : list event → string → string + string;
  (** [os.path.exists] *)
  path_exists : string → bool;
}.

(** ** A monad for the tools: registry state, trace of events, exceptions *)

Definition M (A : Type) : Type :=
  World → Registry * list event → (exn + A) * (Registry * list event).

Global Instance M_ret : MRet M := λ A a _ s, (inr a, s).

Global Instance M_bind : MBind M := λ A B f m w s,
  match m w s with
  | (inl e, s') => (inl e, s')
  | (inr a, s') => f a w s'
  end.

Definition raise {A} (e : exn) : M A := λ _ s, (inl e, s).

(** [try: m except ...: h], where [h e = None] when no clause matches. *)
Definition try_except {A} (m : M A) (h : exn → option (M A)) : M A :=
  λ w s,
    match m w s with
    | (inl e, s') =>
        match h e with
        | Some k => k w s'
        | None => (inl e, s')
        end
    | r => r
    end.

Definition get_registry : M Registry := λ _ s, (inr (fst s), s).

Definition put_registry (r : Registry) : M unit := λ _ s, (inr tt, (r, snd s)).

Definition lift {A} (x : exn + A) : M A := λ _ s, (x, s).

(** [await httpx_client.get(url, timeout=timeout)].  A url that httpx
    refuses raises [httpx.InvalidURL] and no request is sent; otherwise the
    request is an event of the call. *)
Definition httpx_get (url : string) : M response := λ w s,
  let s' := (fst s, snd s ++ [EvGet url]) in
  match http_get w (snd s) url with
  | inl (UrlRefused m) => (inl (InvalidURL m), s)
  | inl (RequestFailed m) => (inl (RequestError m), s')
  | inr r => (inr r, s')
  end.

(** [response.raise_for_status()] *)
Definition raise_for_status (r : response) : M unit :=
  match status_error r with
  | Some m => raise (HTTPStatusError m)
  | None => mret tt
  end.

(** [with open(abs_path, ...) as f: f.read()] *)
Definition open_read (path : string) : M string := λ w s,
  let s' := (fst s, snd s ++ [EvOpen path]) in
  match read_file w (snd s) path with
  | inl m => (inl (OtherError m), s')
  | inr c => (inr c, s')
  end.

(** The clause [except (httpx.HTTPStatusError, httpx.RequestError) as e]. *)
Definition on_http_error {A} (k : exn → M A) (e : exn) : option (M A) :=
  match e with
  | HTTPStatusError _ | RequestError _ => Some (k e)
  | _ => None
  end.

(** The clause [except Exception as e]. *)
Definition on_exception {A} (k : exn → M A) (e : exn) : option (M A) :=
  Some (k e).

(** What a call of a tool amounts to: the value returned or the exception
    that escapes, the registry afterwards, and the events of the call. *)
Definition run {A} (m : M A) (w : World) (r : Registry)
    : (exn + A) * Registry * list event :=
  let '(x, (r', t)) := m w (r, []) in (x, r', t).

(** ** [create_server] and its tools *)

(** The line feed of the messages. *)
Definition nl : string := String "010" "".

(** [f"{s}"] for a set of strings [s]. *)
Definition set_str (L : Library) (s : gset string) : string :=
  match elements s with
  | [] => "set()"
  | l => "{" +:+ Py.join ", " (repr L <$> l) +:+ "}"
  end.

(** [f"{i:2d}"] *)
Definition fmt_2d (i : nat) : string :=
  if (i <? 10)%nat then " " +:+ Py.str_of_nat i else Py.str_of_nat i.

(** [s.replace(old, '')] for a non-empty [old]; [skip] counts the
    characters of the occurrence being removed. *)
Fixpoint erase_from (old : string) (skip : nat) (s : string) : string :=
  match s with
  | "" => ""
  | String a s' =>
      match skip with
      | S k => erase_from old k s'
      | 0 =>
          if Py.startswith s old
          then erase_from old (Nat.pred (String.length old)) s'
          else String a (erase_from old 0 s')
      end
  end.

Definition erase (old s : string) : string :=
  if String.eqb old "" then s else erase_from old 0 s.

Section Server.
Variable L : Library.

Definition is_remote (entry : DocSource) : bool :=
  _is_http_or_https (llms_txt entry).

(** The loop that verifies that all local sources exist. *)
Fixpoint verify_local (w : World) (local_sources : list DocSource)
    : exn + unit :=
  match local_sources with
  | [] => inr tt
  | entry :: rest =>
      let abs_path := _normalize_path L (llms_txt entry) in
      if path_exists w abs_path then verify_local w rest
      else inl (FileNotFoundError ("Local file not found: " +:+ abs_path))
  end.

(** [extract_domain(entry["llms_txt"]) for entry in remote_sources] *)
Fixpoint extract_domains (remote_sources : list DocSource)
    : exn + list string :=
  match remote_sources with
  | [] => inr []
  | entry :: rest =>
      match extract_domain L (llms_txt entry) with
      | inl e => inl e
      | inr d =>
          match extract_domains rest with
          | inl e => inl e
          | inr ds => inr (d :: ds)
          end
      end
  end.

(** [create_server(doc_sources, allowed_domains=...)]: the registry that
    the tools share, or the exception raised before any tool exists. *)
Definition create_server (w : World) (sources : list DocSource)
    (allowed_domains : option (list string)) : exn + Registry :=
  let remote_sources := filter (λ e, is_remote e = true) sources in
  let local_sources := filter (λ e, is_remote e = false) sources in
  match verify_local w local_sources with
  | inl e => inl e
  | inr _ =>
      match extract_domains remote_sources with
      | inl e => inl e
      | inr ds =>
          let domains0 : gset string := list_to_set ds in
          let domains1 :=
            match allowed_domains with
            | Some (d :: ads) =>
                if bool_decide ("*" ∈ d :: ads) then {["*"]}
                else domains0 ∪ list_to_set (d :: ads)
            | _ => domains0
            end in
          inr {| doc_sources := sources;
                 domains := domains1;
                 allowed_local_files :=
                   list_to_set
                     ((λ e, _normalize_path L (llms_txt e)) <$> local_sources) |}
      end
  end.

(** *** [list_doc_sources] *)

Fixpoint list_doc_sources_loop (entries : list DocSource) (content : string)
    : exn + string :=
  match entries with
  | [] => inr content
  | entry_ :: rest =>
      let url_or_path := llms_txt entry_ in
      if _is_http_or_https url_or_path then
        (* the default of [entry_.get] is evaluated before the lookup *)
        match extract_domain L url_or_path with
        | inl e => inl e
        | inr d =>
            let name := default d (name entry_) in
            list_doc_sources_loop rest
              (content +:+ name +:+ nl +:+ "URL: " +:+ url_or_path +:+ nl +:+ nl)
        end
      else
        let path := _normalize_path L url_or_path in
        let name := default path (name entry_) in
        list_doc_sources_loop rest
          (content +:+ name +:+ nl +:+ "Path: " +:+ path +:+ nl +:+ nl)
  end.

Definition list_doc_sources : M string :=
  r ← get_registry;
  lift (list_doc_sources_loop (doc_sources r) "").

(** *** [fetch_docs] *)

Definition fetch_docs (url : string) : M string :=
  r ← get_registry;
  if negb (_is_http_or_https url) then
    let abs_path := _normalize_path L url in
    if bool_decide (abs_path ∉ allowed_local_files r) then
      raise (ValueError ("Local file not allowed: " +:+ abs_path
                         +:+ ". Allowed files: "
                         +:+ set_str L (allowed_local_files r)))
    else
      try_except
        (content ← open_read abs_path;
         mret (markdownify L content))
        (on_exception (λ e,
           mret ("Error reading local file: " +:+ exn_str e)))
  else
    if bool_decide ("*" ∉ domains r)
       && negb (existsb (λ domain, Py.startswith url domain)
                  (elements (domains r)))
    then
      mret ("Error: URL not allowed. Must start with one of the following domains: "
            +:+ Py.join ", " (elements (domains r)))
    else
      try_except
        (response ← httpx_get url;
         raise_for_status response;;
         mret (markdownify L (text response)))
        (on_http_error (λ e,
           mret ("Encountered an HTTP error: " +:+ exn_str e))).
End Server.

(** ** Index discovery: [query_external_docs_smart], [list_external_docs] *)

(** Two [except] clauses in a row: the first that matches handles. *)
Definition or_else {A} (h1 h2 : exn → option (M A)) (e : exn) : option (M A) :=
  match h1 e with
  | Some k => Some k
  | None => h2 e
  end.

(** The loop over [all_found_urls] that fills [available_urls]. *)
Fixpoint collect_urls (llms_domain : string) (all_found_urls : list string)
    (available_urls : list string) : list string :=
  match all_found_urls with
  | [] => available_urls
  | url :: rest =>
      let url := Py.rstrip (Ascii.eqb ")") (Py.strip Py.isspace url) in
      if Py.startswith url "http" && bool_decide (url ∉ available_urls)
      then
        if Py.startswith url llms_domain
        then collect_urls llms_domain rest (available_urls ++ [url])
        else collect_urls llms_domain rest available_urls
      else collect_urls llms_domain rest available_urls
  end.

(** [available_urls] as both tools compute it from the body of the index. *)
Definition available_urls_of (llms_domain llms_content : string) : list string :=
  let html_urls := Re.findall Re.href llms_content in
  let text_urls := Re.findall Re.http_url llms_content in
  collect_urls llms_domain (html_urls ++ text_urls) [].

Section Discovery.
Variable L : Library.

(** The end of [query_external_docs_smart], from the check of the target
    on: the target is fetched only if it starts with [llms_domain]. *)
Definition fetch_target (llms_domain target_url : string) : M string :=
  if negb (Py.startswith target_url llms_domain) then
    mret ("Security error: Target URL " +:+ target_url
          +:+ " is not from the same domain as llms.txt file " +:+ llms_domain)
  else
    doc_response ← httpx_get target_url;
    raise_for_status doc_response;;
    mret ("Documentation from " +:+ target_url +:+ ":" +:+ nl +:+ nl
          +:+ markdownify L (text doc_response)).

(** The part of [query_external_docs_smart] that follows the fetch of the
    index. *)
Definition select_and_fetch (llms_txt_url query llms_domain : string)
    (available_urls : list string) : M string :=
  match available_urls with
  | [] => mret ("No URLs found in llms.txt file: " +:+ llms_txt_url)
  | _ =>
      if Py.startswith query "/" || Py.startswith query "http" then
        let matching_urls :=
          filter (λ url, Py.contains query url = true) available_urls in
        match matching_urls with
        | [] =>
            mret ("No URLs found matching query '" +:+ query
                  +:+ "'. Available URLs:" +:+ nl
                  +:+ Py.join nl (take 10 available_urls)
                  +:+ (if (10 <? length available_urls)%nat then "..." else ""))
        | target_url :: _ => fetch_target llms_domain target_url
        end
      else
        mret ("Available documentation URLs from " +:+ llms_txt_url +:+ ":"
              +:+ nl +:+ nl +:+ Py.join nl available_urls +:+ nl +:+ nl
              +:+ "Please use this tool again with a specific URL path from the list above.")
  end.

(** The lines that both discovery tools start with: the GET of the index,
    its origin, and the candidates found in its body. *)
Definition fetch_index (llms_txt_url : string) : M (string * list string) :=
  response ← httpx_get llms_txt_url;
  raise_for_status response;;
  let llms_content := text response in
  llms_domain ← lift (extract_domain L llms_txt_url);
  mret (llms_domain, available_urls_of llms_domain llms_content).

Definition query_external_docs_smart (llms_txt_url query : string) : M string :=
  try_except
    ('(llms_domain, available_urls) ← fetch_index llms_txt_url;
     select_and_fetch llms_txt_url query llms_domain available_urls)
    (or_else
       (on_http_error (λ e,
          mret ("Error fetching documentation: " +:+ exn_str e)))
       (on_exception (λ e,
          mret ("Unexpected error: " +:+ exn_str e)))).

(** The numbered lines of [list_external_docs], from number [i] on. *)
Fixpoint format_urls (llms_domain : string) (i : nat) (urls : list string)
    : string :=
  match urls with
  | [] => ""
  | url :: rest =>
      let url_path := Py.strip (Ascii.eqb "/") (erase llms_domain url) in
      fmt_2d i +:+ ". " +:+ url_path +:+ nl +:+ "    URL: " +:+ url
      +:+ nl +:+ nl +:+ format_urls llms_domain (S i) rest
  end.

Definition listing (llms_txt_url llms_domain : string)
    (available_urls : list string) : string :=
  match available_urls with
  | [] => "No documentation URLs found in: " +:+ llms_txt_url
  | _ =>
      "Available documentation from " +:+ llms_txt_url +:+ ":" +:+ nl
      +:+ "Domain: " +:+ llms_domain +:+ nl
      +:+ "Found " +:+ Py.str_of_nat (length available_urls)
      +:+ " documentation URLs:" +:+ nl +:+ nl
      +:+ format_urls llms_domain 1 available_urls
      +:+ "Use fetch_docs tool with any of the above URLs to get the content."
  end.

Definition list_external_docs (llms_txt_url : string) : M string :=
  try_except
    ('(llms_domain, available_urls) ← fetch_index llms_txt_url;
     mret (listing llms_txt_url llms_domain available_urls))
    (or_else
       (on_http_error (λ e,
          mret ("Error fetching llms.txt file: " +:+ exn_str e)))
       (on_exception (λ e,
          mret ("Unexpected error: " +:+ exn_str e)))).
End Discovery.

(** ** Registry mutation: [add_doc_source], [remove_doc_source] *)

(** The failure of the validating GET of [add_doc_source]: the message of
    the [RequestError] or of the [HTTPStatusError], if there is one. *)
Definition validating_error (w : World) (url : string) : option string :=
  match http_get w [] url with
  | inl (UrlRefused _) => None
  | inl (RequestFailed m) => Some m
  | inr response => status_error response
  end.

(** The message of the [httpx.InvalidURL] with which httpx refuses [url]
    at the start of a call, if it does. *)
Definition refused (w : World) (url : string) : option string :=
  match http_get w [] url with
  | inl (UrlRefused m) => Some m
  | _ => None
  end.

Section Mutation.
Variable L : Library.

Definition add_doc_source (name llms_txt_url description : string) : M string :=
  try_except
    (response ← httpx_get llms_txt_url;
     raise_for_status response;;
     let new_source :=
       {| name := Some name; llms_txt := llms_txt_url;
          description := Some description |} in
     r ← get_registry;
     put_registry {| doc_sources := doc_sources r ++ [new_source];
                     domains := domains r;
                     allowed_local_files := allowed_local_files r |};;
     (if _is_http_or_https llms_txt_url then
        new_domain ← lift (extract_domain L llms_txt_url);
        r ← get_registry;
        if bool_decide ("*" ∉ domains r) then
          put_registry {| doc_sources := doc_sources r;
                          domains := domains r ∪ {[new_domain]};
                          allowed_local_files := allowed_local_files r |}
        else mret tt
      else mret tt);;
     mret ("Successfully added documentation source '" +:+ name
           +:+ "' with URL: " +:+ llms_txt_url))
    (or_else
       (on_http_error (λ e,
          mret ("Error validating URL " +:+ llms_txt_url +:+ ": " +:+ exn_str e)))
       (on_exception (λ e,
          mret ("Error adding documentation source: " +:+ exn_str e)))).

(** [enumerate(doc_sources)] up to the first [source] with
    [source.get('name') == name]: its index, counted from [i0], and
    the source itself. *)
Fixpoint find_source (name0 : string) (i0 : nat) (sources : list DocSource)
    : option (nat * DocSource) :=
  match sources with
  | [] => None
  | source :: rest =>
      if bool_decide (name source = Some name0) then Some (i0, source)
      else find_source name0 (S i0) rest
  end.

Definition remove_doc_source (name0 : string) : M string :=
  r ← get_registry;
  match find_source name0 0 (doc_sources r) with
  | Some (i, removed_source) =>
      put_registry {| doc_sources := delete i (doc_sources r);
                      domains := domains r;
                      allowed_local_files := allowed_local_files r |};;
      mret ("Successfully removed documentation source '" +:+ name0
            +:+ "' (URL: " +:+ llms_txt removed_source +:+ ")")
  | None =>
      let available_names := (λ source, default "unnamed" (name source))
                               <$> doc_sources r in
      mret ("Documentation source '" +:+ name0
            +:+ "' not found. Available sources: "
            +:+ Py.join ", " available_names)
  end.

(** The calls that a client can make, and the tool behind each. *)
Inductive call : Type :=
  | ListDocSources
  | FetchDocs (url : string)
  | QueryExternalDocsSmart (llms_txt_url query : string)
  | ListExternalDocs (llms_txt_url : string)
  | AddDocSource (name llms_txt_url description : string)
  | RemoveDocSource (name : string).

Definition tool (c : call) : M string :=
  match c with
  | ListDocSources => list_doc_sources L
  | FetchDocs url => fetch_docs L url
  | QueryExternalDocsSmart u q => query_external_docs_smart L u q
  | ListExternalDocs u => list_external_docs L u
  | AddDocSource n u d => add_doc_source n u d
  | RemoveDocSource n => remove_doc_source n
  end.

(** The registry after a call. *)
Definition after (c : call) (w : World) (r : Registry) : Registry :=
  snd (fst (run (tool c) w r)).

(** The registries that a server can be in after calls that satisfy
    [ok]: the one built by [create_server], and any that such a call of
    a tool leaves behind. *)
Inductive reachable_by (ok : call → World → Prop) (r0 : Registry)
    : Registry → Prop :=
  | reachable_init : reachable_by ok r0 r0
  | reachable_call r c w :
      reachable_by ok r0 r → ok c w → reachable_by ok r0 (after c w r).

(** Every sequence of calls, in every sequence of worlds. *)
Definition reachable : Registry → Registry → Prop :=
  reachable_by (λ _ _, True).
End Mutation.

(** ** A concrete library, to run the model *)

(** [posixpath] and [repr], as CPython defines them, on the code points
    below 256. *)
Module Posix.

(** [s.split('/')] *)
Fixpoint split_go (cur : string) (s : string) : list string :=
  match s with
  | "" => [String.rev cur]
  | String a s' =>
      if Ascii.eqb a "/" then String.rev cur :: split_go "" s'
      else split_go (String a cur) s'
  end.
Definition split (s : string) : list string := split_go "" s.

(** The loop of [normpath] over the components; [new_comps] is kept in
    reverse, its last member first. *)
Fixpoint norm_comps (initial_slashes : nat) (comps : list string)
    (new_comps : list string) : list string :=
  match comps with
  | [] => rev new_comps
  | comp :: rest =>
      if String.eqb comp "" || String.eqb comp "." then
        norm_comps initial_slashes rest new_comps
      else if negb (String.eqb comp "..")
              || (Nat.eqb initial_slashes 0
                  && match new_comps with [] => true | _ => false end)
              || match new_comps with
                 | last :: _ => String.eqb last ".."
                 | [] => false
                 end
      then norm_comps initial_slashes rest (comp :: new_comps)
      else norm_comps initial_slashes rest (tail new_comps)
  end.

Definition normpath (path : string) : string :=
  if String.eqb path "" then "."
  else
    let initial_slashes :=
      if Py.startswith path "/" then
        if Py.startswith path "//" && negb (Py.startswith path "///")
        then 2 else 1
      else 0 in
    let path' := Py.join "/" (norm_comps initial_slashes (split path) []) in
    let path' := Py.take initial_slashes "//" +:+ path' in
    if String.eqb path' "" then "." else path'.

(** [join(a, b)] *)
Definition join (a b : string) : string :=
  if Py.startswith b "/" then b
  else if String.eqb a "" || Py.startswith (String.rev a) "/" then a +:+ b
  else a +:+ "/" +:+ b.

Definition abspath (cwd path : string) : string :=
  if Py.startswith path "/" then normpath path
  else normpath (join cwd path).

Definition hex_digit (n : N) : ascii :=
  if (n <? 10)%N then ascii_of_N (48 + n) else ascii_of_N (87 + n).

Definition printable (c : ascii) : bool :=
  let n := Py.code c in
  ((32 <=? n) && (n <? 127) || (161 <=? n) && negb (n =? 173))%N.

Definition repr_char (quote c : ascii) : string :=
  let bs := "092"%char in
  if Ascii.eqb c quote || Ascii.eqb c bs then String bs (String c "")
  else if Ascii.eqb c "009" then String bs "t"
  else if Ascii.eqb c "010" then String bs "n"
  else if Ascii.eqb c "013" then String bs "r"
  else if printable c then String c ""
  else String bs (String "x" (String (hex_digit (Py.code c / 16))
                                (String (hex_digit (Py.code c mod 16)) ""))).

Fixpoint repr_body (quote : ascii) (s : string) : string :=
  match s with
  | "" => ""
  | String a s' => repr_char quote a +:+ repr_body quote s'
  end.

Definition repr (s : string) : string :=
  let quote :=
    if Py.has "'" s && negb (Py.has Re.dquote s) then Re.dquote else "'"%char in
  String quote (repr_body quote s) +:+ String quote "".

(** The library of a process whose working directory is [cwd], for
    urls without square brackets and text without markup: the two
    netloc checks accept and [markdownify] is the identity. *)
Definition library (cwd : string) : Library :=
  Build_Library (λ _, None) (λ _, None) (abspath cwd) (λ s, s) repr.

End Posix.

(** ** Worlds, a library and registries to evaluate the tools on *)

Definition posix : Library := Posix.library "/srv/app".

(** A world in which every GET answers 200 with [body], every file holds
    [body], and every path exists. *)
Definition world_serving (body : string) : World :=
  {| http_get := λ _ _, inr {| status_error := None; text := body |};
     read_file := λ _ _, inr body;
     path_exists := λ _, true |}.

(** A world in which every GET fails in transport and no file exists. *)
Definition world_offline : World :=
  {| http_get := λ _ _, inl (RequestFailed "All connection attempts failed");
     read_file := λ _ _, inl "[Errno 2] No such file or directory";
     path_exists := λ _, false |}.

(** A world in which every GET answers with an error status. *)
Definition world_not_found : World :=
  {| http_get := λ _ _,
       inr {| status_error := Some "Client error '404 Not Found'";
              text := "" |};
     read_file := λ _ _, inl "[Errno 2] No such file or directory";
     path_exists := λ _, false |}.

(** A character that httpx does not accept in a url: a control
    character. *)
Definition non_printable (c : ascii) : bool :=
  ((Ascii.N_of_ascii c <? 32) || (Ascii.N_of_ascii c =? 127))%N.

(** A world like [world_serving], in which httpx refuses every url that
    holds a control character. *)
Definition world_checking (body : string) : World :=
  {| http_get := λ _ url,
       if existsb non_printable (String.list_ascii_of_string url)
       then inl (UrlRefused "Invalid non-printable ASCII character in URL")
       else inr {| status_error := None; text := body |};
     read_file := λ _ _, inr body;
     path_exists := λ _, true |}.

(** A remote source with a name. *)
Definition example_source : DocSource :=
  {| name := Some "Example"; llms_txt := "https://example.com/llms.txt";
     description := None |}.

(** A local source without a name. *)
Definition local_source : DocSource :=
  {| name := None; llms_txt := "./docs/llms.txt"; description := None |}.

(** One remote source, one local source without a name, no extra origin. *)
Definition example_registry : Registry :=
  {| doc_sources := [example_source; local_source];
     domains := {["https://example.com/"]};
     allowed_local_files := {["/srv/app/docs/llms.txt"]} |}.

(** The same sources, every origin allowed. *)
Definition wildcard_registry : Registry :=
  {| doc_sources := [example_source; local_source];
     domains := {["*"]};
     allowed_local_files := {["/srv/app/docs/llms.txt"]} |}.

(** ** The vocabulary of the properties *)

(** [m] leaves the registry as it found it. *)
Definition keeps_registry {X} (m : M X) : Prop :=
  ∀ w s, fst (snd (m w s)) = fst s.

(** Every exception that escapes [m] satisfies [P]. *)
Definition throws {X} (P : exn → Prop) (m : M X) : Prop :=
  ∀ w s e, fst (m w s) = inl e → P e.

(** The exceptions of the transport. *)
Definition is_http_error (e : exn) : Prop :=
  match e with
  | HTTPStatusError _ | RequestError _ => True
  | _ => False
  end.

(** The source that [add_doc_source] builds. *)
Definition new_source (name0 url description0 : string) : DocSource :=
  {| name := Some name0; llms_txt := url; description := Some description0 |}.

(** [doc_sources.append(e)] *)
Definition with_source (r : Registry) (e : DocSource) : Registry :=
  {| doc_sources := doc_sources r ++ [e];
     domains := domains r;
     allowed_local_files := allowed_local_files r |}.

(** [domains.add(d)] *)
Definition with_domain (r : Registry) (d : string) : Registry :=
  {| doc_sources := doc_sources r;
     domains := domains r ∪ {[d]};
     allowed_local_files := allowed_local_files r |}.

(** [fetch_docs] on a remote url that passes the origin check: the url
    is handed to httpx.  If httpx refuses it, [httpx.InvalidURL] escapes
    the tool and no request is made; otherwise the GET is made and its
    outcome is returned as text. *)
Definition fetched (L : Library) (w : World) (r : Registry) (url : string)
    : (exn + string) * Registry * list event :=
  match http_get w [] url with
  | inl (UrlRefused m) => (inl (InvalidURL m), r, [])
  | inl (RequestFailed m) =>
      (inr ("Encountered an HTTP error: " +:+ m), r, [EvGet url])
  | inr response =>
      (inr match status_error response with
           | Some m => "Encountered an HTTP error: " +:+ m
           | None => markdownify L (text response)
           end,
       r, [EvGet url])
  end.


(** [d] occurs in [msg]. *)
Definition occurs_in (d msg : string) : Prop := ∃ a b, msg = a +:+ d +:+ b.

(** The extra origins do not contain the wildcard token. *)
Definition without_wildcard (allowed_domains : option (list string)) : Prop :=
  ∀ ads, allowed_domains = Some ads → "*" ∉ ads.

(** The text of [fetch_docs] for a url outside the allowed origins. *)
Definition origin_not_allowed (r : Registry) : string :=
  "Error: URL not allowed. Must start with one of the following domains: "
  +:+ Py.join ", " (elements (domains r)).

(** The sources that were configured without a name. *)
Definition unnamed (l : list DocSource) : list DocSource :=
  filter (λ e, name e = None) l.

(** Every local source has its normalized path among the allowed files. *)
Definition local_paths_allowed (L : Library) (r : Registry) : Prop :=
  ∀ e, e ∈ doc_sources r → is_remote e = false →
       _normalize_path L (llms_txt e) ∈ allowed_local_files r.

(** The calls in which [add_doc_source], if its validating GET succeeds,
    is given a remote url. *)
Definition adds_remote (c : call) (w : World) : Prop :=
  match c with
  | AddDocSource _ url _ =>
      _is_http_or_https url = true ∨ validating_error w url ≠ None
  | _ => True
  end.

(** The message of the [ValueError] of [fetch_docs] for a local path
    outside the allowed files. *)
Definition path_not_allowed (L : Library) (r : Registry) (abs_path : string)
    : string :=
  "Local file not allowed: " +:+ abs_path +:+ ". Allowed files: "
  +:+ set_str L (allowed_local_files r).


(** [extract_domain] is defined on every remote source. *)
Definition sources_parse (L : Library) (r : Registry) : Prop :=
  ∀ e, e ∈ doc_sources r → is_remote e = true →
       ∃ d, extract_domain L (llms_txt e) = inr d.

(** ** [_get_fetch_description] *)

(** The description of the [fetch_docs] tool: the lines joined by line
    feeds. *)
Definition _get_fetch_description (has_local_sources : bool) : string :=
  let description :=
    [ "Fetch and parse documentation from a given URL or local file.";
      "";
      "Use this tool after list_doc_sources to:";
      "1. First fetch the llms.txt file from a documentation source";
      "2. Analyze the URLs listed in the llms.txt file";
      "3. Then fetch specific documentation pages relevant to the user's question";
      "" ] in
  let description :=
    if has_local_sources then
      description ++
      [ "Args:";
        "    url: The URL or file path to fetch documentation from. Can be:";
        "        - URL from an allowed domain";
        "        - A local file path (absolute or relative)";
        "        - A file:// URL (e.g., file:///path/to/llms.txt)" ]
    else
      description ++
      [ "Args:";
        "    url: The URL to fetch documentation from." ] in
  let description :=
    description ++
    [ "";
      "Returns:";
      "    The fetched documentation content converted to markdown, or an error message";
      "    if the request fails or the URL is not from an allowed domain." ] in
  Py.join nl description.

(** [fetch_docs_description] as [create_server] computes it:
    [has_local_sources=bool(local_sources)]. *)
Definition fetch_docs_description (sources : list DocSource) : string :=
  let local_sources := filter (λ e, is_remote e = false) sources in
  _get_fetch_description
    (match local_sources with [] => false | _ => true end).

(** ** The vocabulary of the further properties *)

(** [url.strip().rstrip(')')], the clean-up of a url found in an index. *)
Definition cleaned (url : string) : string :=
  Py.rstrip (Ascii.eqb ")") (Py.strip Py.isspace url).

(** The origin of every remote source on which [extract_domain] is
    defined is an allowed origin, unless every origin is allowed. *)
Definition origins_allowed (L : Library) (r : Registry) : Prop :=
  ∀ e d, e ∈ doc_sources r → is_remote e = true →
         extract_domain L (llms_txt e) = inr d →
         d ∈ domains r ∨ "*" ∈ domains r.

(** The query is one that [query_external_docs_smart] matches against the
    candidates: it starts with a slash or with [http]. *)
Definition path_like (query : string) : bool :=
  Py.startswith query "/" || Py.startswith query "http".

(** The lines of [list_doc_sources] for one source, given the name
    shown. *)
Definition source_lines (L : Library) (e : DocSource) (shown : string) : string :=
  if is_remote e
  then shown +:+ nl +:+ "URL: " +:+ llms_txt e +:+ nl +:+ nl
  else shown +:+ nl +:+ "Path: " +:+ _normalize_path L (llms_txt e) +:+ nl +:+ nl.

(** The answer of [query_external_docs_smart] once it has chosen the
    target, with the events of the whole call.  A target that httpx
    refuses is answered by the last clause of the tool, and no second
    request is made. *)
Definition documentation_from (L : Library) (w : World) (index target : string)
    : string * list event :=
  match http_get w [EvGet index] target with
  | inl (UrlRefused m) => ("Unexpected error: " +:+ m, [EvGet index])
  | inl (RequestFailed m) =>
      ("Error fetching documentation: " +:+ m, [EvGet index; EvGet target])
  | inr response =>
      (match status_error response with
       | Some m => "Error fetching documentation: " +:+ m
       | None =>
           "Documentation from " +:+ target +:+ ":" +:+ nl +:+ nl
           +:+ markdownify L (text response)
       end,
       [EvGet index; EvGet target])
  end.

(** The answer of [query_external_docs_smart] when it stops at the
    candidates. *)
Definition candidates_answer (index query : string) (urls : list string)
    : string :=
  match urls with
  | [] => "No URLs found in llms.txt file: " +:+ index
  | _ =>
      if path_like query then
        "No URLs found matching query '" +:+ query
        +:+ "'. Available URLs:" +:+ nl
        +:+ Py.join nl (take 10 urls)
        +:+ (if (10 <? length urls)%nat then "..." else "")
      else
        "Available documentation URLs from " +:+ index +:+ ":"
        +:+ nl +:+ nl +:+ Py.join nl urls +:+ nl +:+ nl
        +:+ "Please use this tool again with a specific URL path from the list above."
  end.

(** The target that [query_external_docs_smart] chooses among the
    candidates, if any: the first one in which a path-like query occurs. *)
Definition first_match (query : string) (urls : list string) : option string :=
  if path_like query
  then head (filter (λ url, Py.contains query url = true) urls)
  else None.

(** What [query_external_docs_smart] answers and does once the index is
    fetched and [urls] are the candidates of its origin. *)
Definition smart_answer (L : Library) (w : World) (r : Registry)
    (index query : string) (urls : list string)
    : (exn + string) * Registry * list event :=
  match first_match query urls with
  | Some target =>
      (inr (fst (documentation_from L w index target)), r,
       snd (documentation_from L w index target))
  | None => (inr (candidates_answer index query urls), r, [EvGet index])
  end.

(** The refusal of a target outside the origin of the index. *)
Definition security_error (target d : string) : string :=
  "Security error: Target URL " +:+ target
  +:+ " is not from the same domain as llms.txt file " +:+ d.

(** The text that [list_external_docs] returns for the candidates [urls]
    of the origin [d]: the header, then for each candidate its number, its
    path under the origin and the candidate itself, then the footer. *)
Definition listing_text (index d : string) (urls : list string) : string :=
  match urls with
  | [] => "No documentation URLs found in: " +:+ index
  | _ =>
      "Available documentation from " +:+ index +:+ ":" +:+ nl
      +:+ "Domain: " +:+ d +:+ nl
      +:+ "Found " +:+ Py.str_of_nat (length urls)
      +:+ " documentation URLs:" +:+ nl +:+ nl
      +:+ foldr String.append ""
            (imap (λ i url,
               fmt_2d (S i) +:+ ". "
               +:+ Py.strip (Ascii.eqb "/") (erase d url) +:+ nl
               +:+ "    URL: " +:+ url +:+ nl +:+ nl) urls)
      +:+ "Use fetch_docs tool with any of the above URLs to get the content."
  end.

(** A url with a bracket that [urlparse] rejects and that httpx accepts. *)
Definition bad_bracket_url : string := "http://a]b/llms.txt".

(** * Properties *)

(** ** Strings *)

Lemma app_cons (a : ascii) (s t : string) :
  String a s +:+ t = String a (s +:+ t).
Proof. reflexivity. Qed.

Lemma app_empty_l (t : string) : "" +:+ t = t.
Proof. reflexivity. Qed.

Lemma app_assoc_s (s t u : string) : (s +:+ t) +:+ u = s +:+ t +:+ u.
Proof. induction s as [|a s IH]; [done|]. rewrite !app_cons. by f_equal. Qed.

Lemma all_app (p : ascii → bool) (s t : string) :
  Py.all p (s +:+ t) = Py.all p s && Py.all p t.
Proof.
  induction s as [|a s IH]; [done|].
  rewrite app_cons. simpl. rewrite IH. by destruct (p a).
Qed.

Lemma all_impl (p q : ascii → bool) (s : string) :
  (∀ c, p c = true → q c = true) → Py.all p s = true → Py.all q s = true.
Proof.
  intros Hpq. induction s as [|a s IH]; [done|]. simpl.
  intros [Ha Hs]%andb_true_iff. rewrite (Hpq _ Ha). simpl. auto.
Qed.

Lemma all_drop (p : ascii → bool) (n : nat) (s : string) :
  Py.all p s = true → Py.all p (Py.drop n s) = true.
Proof.
  revert s. induction n as [|n IH]; intros [|a s]; simpl; try done.
  intros [_ Hs]%andb_true_iff. auto.
Qed.

Lemma all_take (p : ascii → bool) (n : nat) (s : string) :
  Py.all p s = true → Py.all p (Py.take n s) = true.
Proof.
  revert s. induction n as [|n IH]; intros [|a s]; simpl; try done.
  intros [Ha Hs]%andb_true_iff. rewrite Ha. simpl. auto.
Qed.

Lemma all_span_fst (p stop : ascii → bool) (s : string) :
  Py.all p s = true → Py.all p (fst (Py.span stop s)) = true.
Proof.
  induction s as [|a s IH]; [done|]. simpl.
  intros [Ha Hs]%andb_true_iff. destruct (stop a); [done|].
  destruct (Py.span stop s) as [u v]. simpl in *. rewrite Ha. auto.
Qed.

Lemma span_fst_stop (stop : ascii → bool) (s : string) :
  Py.all (λ c, negb (stop c)) (fst (Py.span stop s)) = true.
Proof.
  induction s as [|a s IH]; [done|]. simpl.
  destruct (stop a) eqn:Ha; [done|].
  destruct (Py.span stop s) as [u v]. simpl in *. by rewrite Ha.
Qed.

Lemma span_app_stop (stop : ascii → bool) (s t : string) (x : ascii) :
  Py.all (λ c, negb (stop c)) s = true → stop x = true →
  Py.span stop (s +:+ String x t) = (s, String x t).
Proof.
  intros Hs Hx. induction s as [|a s IH].
  - rewrite app_empty_l. simpl. by rewrite Hx.
  - rewrite app_cons. simpl in *. apply andb_true_iff in Hs as [Ha Hs].
    apply negb_true_iff in Ha. rewrite Ha, (IH Hs). done.
Qed.

Lemma all_remove (p : ascii → bool) (s : string) :
  Py.all (λ c, negb (p c)) (Py.remove p s) = true.
Proof.
  induction s as [|a s IH]; [done|]. simpl.
  destruct (p a) eqn:Ha; [done|]. simpl. by rewrite Ha.
Qed.

Lemma remove_id (p : ascii → bool) (s : string) :
  Py.all (λ c, negb (p c)) s = true → Py.remove p s = s.
Proof.
  induction s as [|a s IH]; [done|]. simpl.
  intros [Ha Hs]%andb_true_iff. apply negb_true_iff in Ha. rewrite Ha.
  by rewrite IH.
Qed.

Lemma find_app_fresh (x : ascii) (s t : string) :
  Py.all (λ c, negb (Ascii.eqb c x)) s = true →
  Py.find x (s +:+ String x t) = Some (String.length s).
Proof.
  induction s as [|a s IH]; intros Hs.
  - rewrite app_empty_l. simpl. by rewrite Ascii.eqb_refl.
  - rewrite app_cons. simpl in *. apply andb_true_iff in Hs as [Ha Hs].
    apply negb_true_iff in Ha. rewrite Ha, (IH Hs). done.
Qed.

Lemma take_app_length (s t : string) : Py.take (String.length s) (s +:+ t) = s.
Proof.
  induction s as [|a s IH]; [by destruct t|].
  rewrite app_cons. simpl. by rewrite IH.
Qed.

Lemma drop_app_length (s t : string) : Py.drop (String.length s) (s +:+ t) = t.
Proof.
  induction s as [|a s IH]; [by destruct t|].
  rewrite app_cons. simpl. by rewrite IH.
Qed.

(** A property of characters, checked on every code point. *)
Ltac by_cases_on_char c :=
  destruct c as [[] [] [] [] [] [] [] []]; vm_compute; try done; auto.

Lemma lower_char_idem (c : ascii) : Py.lower_char (Py.lower_char c) = Py.lower_char c.
Proof. by_cases_on_char c. Qed.

Lemma lower_idem (s : string) : Py.lower (Py.lower s) = Py.lower s.
Proof. induction s as [|a s IH]; simpl; [done|]. by rewrite lower_char_idem, IH. Qed.

Lemma scheme_char_lower (c : ascii) :
  Url.scheme_char c = true → Url.scheme_char (Py.lower_char c) = true.
Proof. by_cases_on_char c. Qed.

Lemma isalpha_lower (c : ascii) :
  Py.isalpha_ascii c = true → Py.isalpha_ascii (Py.lower_char c) = true.
Proof. by_cases_on_char c. Qed.

Lemma all_scheme_char_lower (s : string) :
  Py.all Url.scheme_char s = true → Py.all Url.scheme_char (Py.lower s) = true.
Proof.
  induction s as [|a s IH]; [done|]. simpl.
  intros [Ha Hs]%andb_true_iff. rewrite (scheme_char_lower _ Ha). simpl. auto.
Qed.

Lemma scheme_char_not_colon (c : ascii) :
  Url.scheme_char c = true → negb (Ascii.eqb c ":") = true.
Proof. by_cases_on_char c. Qed.

Lemma scheme_char_safe (c : ascii) :
  Url.scheme_char c = true → negb (Url.unsafe_byte c) = true.
Proof. by_cases_on_char c. Qed.

Lemma alpha_not_c0 (c : ascii) :
  Py.isalpha_ascii c = true → Url.c0_control_or_space c = false.
Proof. by_cases_on_char c. Qed.

(** ** [urlparse] on an origin that [extract_domain] built *)

Lemma split_scheme_spec (u scheme rest : string) :
  Url.split_scheme u = (scheme, rest) →
  (scheme = "" ∧ rest = u) ∨
  (∃ c s n, scheme = String c s ∧ Py.isalpha_ascii c = true
            ∧ Py.all Url.scheme_char scheme = true
            ∧ Py.lower scheme = scheme ∧ rest = Py.drop n u).
Proof.
  unfold Url.split_scheme.
  destruct (Py.find ":" u) as [[|i]|]; destruct u as [|c0 u'];
    try (intros [= <- <-]; by left).
  destruct (Py.isalpha_ascii c0 && Py.all Url.scheme_char (Py.take (S i) (String c0 u')))
    eqn:Hc; [|intros [= <- <-]; by left].
  apply andb_true_iff in Hc as [Hc0 Hall].
  intros [= <- <-]. right.
  exists (Py.lower_char c0), (Py.lower (Py.take i u')), (S (S i)).
  split; [done|]. split; [by apply isalpha_lower|].
  split; [by apply (all_scheme_char_lower (Py.take (S i) (String c0 u')))|].
  split; [apply (lower_idem (Py.take (S i) (String c0 u')))|done].
Qed.

Lemma drop_succ (n : nat) (u : string) (x : ascii) (t : string) :
  Py.drop n u = String x t → Py.drop (S n) u = t.
Proof.
  revert u. induction n as [|n IH]; intros [|a u]; simpl; try done.
  - by intros [= _ ->].
  - apply IH.
Qed.

Lemma split_scheme_origin (tail : string) (c : ascii) (s : string) :
  Py.isalpha_ascii c = true →
  Py.all Url.scheme_char (String c s) = true →
  Py.lower (String c s) = String c s →
  Url.split_scheme (String c s +:+ String ":" tail) = (String c s, tail).
Proof.
  intros Hc Hall Hlow. unfold Url.split_scheme.
  rewrite find_app_fresh
    by (eapply all_impl; [apply scheme_char_not_colon|done]).
  pose proof (take_app_length (String c s) (String ":" tail)) as Ht.
  pose proof (drop_app_length (String c s) (String ":" tail)) as Hd.
  apply drop_succ in Hd.
  rewrite app_cons in *. simpl String.length in *.
  by rewrite Hc, Ht, Hall, Hlow, Hd.
Qed.

Lemma split_netloc_safe (p : ascii → bool) (rest : string) :
  Py.all p rest = true → Py.all p (Url.split_netloc rest) = true.
Proof.
  intros H. unfold Url.split_netloc.
  destruct (Py.startswith rest "//"); [|done].
  by apply all_span_fst, all_drop.
Qed.

Lemma split_netloc_no_delim (rest : string) :
  Py.all (λ c, negb (Url.netloc_delim c)) (Url.split_netloc rest) = true.
Proof.
  unfold Url.split_netloc. destruct (Py.startswith rest "//"); [|done].
  apply span_fst_stop.
Qed.

Lemma startswith_app (p t : string) : Py.startswith (p +:+ t) p = true.
Proof.
  unfold Py.startswith. induction p as [|a p IH]; [by destruct t|].
  rewrite app_cons. simpl. by destruct (ascii_dec a a).
Qed.

Lemma startswith_inv (s p : string) :
  Py.startswith s p = true → ∃ t, s = p +:+ t.
Proof.
  unfold Py.startswith. revert s.
  induction p as [|a p IH]; intros s; [by exists s|].
  destruct s as [|b s]; [done|]. simpl.
  destruct (ascii_dec a b) as [->|]; [|done].
  intros [t ->]%IH. by exists t.
Qed.

Lemma split_netloc_origin (netloc : string) :
  Py.all (λ c, negb (Url.netloc_delim c)) netloc = true →
  Url.split_netloc ("//" +:+ netloc +:+ "/") = netloc.
Proof.
  intros H. unfold Url.split_netloc.
  rewrite startswith_app.
  change (Py.drop 2 ("//" +:+ netloc +:+ "/")) with (netloc +:+ "/").
  by rewrite (span_app_stop Url.netloc_delim netloc "" "/").
Qed.

Section Origin.
Variable L : Library.

Lemma urlparse_origin (url scheme netloc : string) :
  Url.urlparse L url = inr (scheme, netloc) →
  scheme ≠ "" →
  Url.urlparse L (scheme +:+ "://" +:+ netloc +:+ "/") = inr (scheme, netloc).
Proof.
  unfold Url.urlparse at 1.
  set (u := Py.remove Url.unsafe_byte (Py.lstrip Url.c0_control_or_space url)).
  assert (Hu : Py.all (λ c, negb (Url.unsafe_byte c)) u = true)
    by apply all_remove.
  destruct (Url.split_scheme u) as [sc rest] eqn:Hs.
  destruct (if Py.startswith rest "//" then _ else _) eqn:Hb; [done|].
  destruct (Url.checknetloc L (Url.split_netloc rest)) eqn:Hn; [done|].
  intros [= -> <-] Hne.
  apply split_scheme_spec in Hs as [[-> _]|(c & s & n & Hsch & Hc & Hall & Hlow & ->)];
    [done|].
  set (netloc := Url.split_netloc (Py.drop n u)) in *.
  assert (Hsafe : Py.all (λ c, negb (Url.unsafe_byte c)) netloc = true)
    by by apply split_netloc_safe, all_drop.
  assert (Hdelim : Py.all (λ c, negb (Url.netloc_delim c)) netloc = true)
    by apply split_netloc_no_delim.
  unfold Url.urlparse.
  assert (Hstrip : Py.lstrip Url.c0_control_or_space
                     (scheme +:+ "://" +:+ netloc +:+ "/")
                   = scheme +:+ "://" +:+ netloc +:+ "/").
  { rewrite Hsch, app_cons. simpl. by rewrite (alpha_not_c0 _ Hc). }
  rewrite Hstrip.
  rewrite remove_id; last first.
  { rewrite !all_app, Hsafe.
    rewrite (all_impl _ _ _ scheme_char_safe Hall). done. }
  change (scheme +:+ "://" +:+ netloc +:+ "/")
    with (scheme +:+ String ":" ("//" +:+ netloc +:+ "/")).
  rewrite Hsch in Hall, Hlow |- *.
  rewrite (split_scheme_origin _ c s Hc Hall Hlow).
  rewrite split_netloc_origin by done.
  rewrite startswith_app.
  assert (Hb' : Url.check_brackets L netloc = None).
  { destruct (Py.startswith (Py.drop n u) "//") eqn:Hst; [done|].
    subst netloc. unfold Url.split_netloc. by rewrite Hst. }
  by rewrite Hb', Hn.
Qed.

(** A url that [_is_http_or_https] accepts has the scheme [http] or
    [https]. *)
Lemma remote_scheme (url scheme netloc : string) :
  _is_http_or_https url = true →
  Url.urlparse L url = inr (scheme, netloc) →
  scheme = "http" ∨ scheme = "https".
Proof.
  unfold _is_http_or_https. intros [H|H]%orb_true_iff;
    apply startswith_inv in H as [t ->];
    unfold Url.urlparse; rewrite !app_cons, app_empty_l; simpl;
    destruct (if Py.startswith _ "//" then _ else _); try done;
    destruct (Url.checknetloc L _); try done; intros [= <- _]; auto.
Qed.
End Origin.

(** ** [extract_domain] *)

Section ExtractDomain.
Variable L : Library.

Lemma extract_domain_parse (url d : string) :
  extract_domain L url = inr d →
  ∃ scheme netloc,
    Url.urlparse L url = inr (scheme, netloc)
    ∧ d = scheme +:+ "://" +:+ netloc +:+ "/".
Proof.
  unfold extract_domain.
  destruct (Url.urlparse L url) as [e|[scheme netloc]]; [done|].
  intros [= <-]. eauto.
Qed.

(** [extract_domain] raises nothing but [ValueError]. *)
Lemma extract_domain_raises (url : string) (e : exn) :
  extract_domain L url = inl e → ∃ m, e = ValueError m.
Proof.
  unfold extract_domain, Url.urlparse.
  destruct (Url.split_scheme _) as [scheme rest].
  destruct (if Py.startswith rest "//" then _ else _) as [m|];
    [intros [= <-]; by exists m|].
  destruct (Url.checknetloc L _) as [m|]; [|done].
  intros [= <-]. by exists m.
Qed.

(** The wildcard marker is not an origin. *)
Lemma extract_domain_not_wildcard (url d : string) :
  extract_domain L url = inr d → d ≠ "*".
Proof.
  intros (scheme & netloc & _ & ->)%extract_domain_parse.
  destruct scheme as [|c [|c' s]]; done.
Qed.

(** Without a scheme, the origin of a url with a netloc is not stable:
    the second extraction loses the netloc. *)
Lemma extract_domain_schemeless (netloc : string) :
  extract_domain L ("://" +:+ netloc +:+ "/") = inr ":///".
Proof.
  unfold extract_domain, Url.urlparse.
  change ("://" +:+ netloc +:+ "/") with (String ":" ("//" +:+ netloc +:+ "/")).
  simpl. reflexivity.
Qed.

(** For a url that the tools treat as remote, the origin is stable. *)
Lemma extract_domain_remote_idempotent (url d : string) :
  _is_http_or_https url = true →
  extract_domain L url = inr d → extract_domain L d = inr d.
Proof.
  intros Hr (scheme & netloc & Hp & ->)%extract_domain_parse.
  unfold extract_domain. rewrite (urlparse_origin L url); [done..|].
  by destruct (remote_scheme L _ _ _ Hr Hp) as [Hs|Hs]; rewrite Hs.
Qed.

(** C9.  For every url, that is, every string in which [urlparse]
    finds a scheme, [extract_domain(url)] is the string
    [scheme://netloc/] and [extract_domain] maps that string to itself.
    The same holds of a string in which [urlparse] finds neither scheme
    nor netloc. *)
Theorem extract_domain_idempotent (url scheme netloc : string) :
  Url.urlparse L url = inr (scheme, netloc) →
  scheme ≠ "" ∨ netloc = "" →
  extract_domain L url = inr (scheme +:+ "://" +:+ netloc +:+ "/")
  ∧ extract_domain L (scheme +:+ "://" +:+ netloc +:+ "/")
    = inr (scheme +:+ "://" +:+ netloc +:+ "/").
Proof.
  intros Hp Hcase. unfold extract_domain at 1. rewrite Hp. split; [done|].
  destruct (decide (scheme = "")) as [->|Hne].
  - destruct Hcase as [ ? | -> ]; [done|]. reflexivity.
  - unfold extract_domain. by rewrite (urlparse_origin L url).
Qed.
End ExtractDomain.

Lemma extract_domain_idempotent_witness :
  extract_domain posix "https://example.com/docs/llms.txt"
    = inr "https://example.com/"
  ∧ extract_domain posix "https://example.com/" = inr "https://example.com/".
Proof.
  apply (extract_domain_idempotent posix
           "https://example.com/docs/llms.txt" "https" "example.com").
  - reflexivity.
  - left. discriminate.
Defined.

(** Outside the urls: on a reference that has a netloc and no scheme,
    which no tool takes for remote, [extract_domain] gives [://host/],
    which it does not map to itself. *)
Lemma extract_domain_without_scheme :
  extract_domain posix "//host/path" = inr "://host/"
  ∧ extract_domain posix "://host/" = inr ":///"
  ∧ extract_domain posix "://host/" ≠ inr "://host/".
Proof. repeat split; [reflexivity..|discriminate]. Qed.

(** ** The monad: what a computation keeps and what it can raise *)

Section MonadLaws.
Context {A B : Type}.

Lemma keeps_ret (a : A) : keeps_registry (mret a).
Proof. done. Qed.

Lemma keeps_raise (e : exn) : keeps_registry (raise e : M A).
Proof. done. Qed.

Lemma keeps_lift (x : exn + A) : keeps_registry (lift x).
Proof. done. Qed.

Lemma keeps_bind (m : M A) (f : A → M B) :
  keeps_registry m → (∀ a, keeps_registry (f a)) → keeps_registry (m ≫= f).
Proof.
  intros Hm Hf w s. unfold mbind, M_bind. specialize (Hm w s).
  destruct (m w s) as [[e|a] s']; [done|]. by rewrite Hf.
Qed.

Lemma keeps_try (m : M A) (h : exn → option (M A)) :
  keeps_registry m → (∀ e k, h e = Some k → keeps_registry k) →
  keeps_registry (try_except m h).
Proof.
  intros Hm Hh w s. unfold try_except. specialize (Hm w s).
  destruct (m w s) as [[e|a] s']; [|done].
  destruct (h e) as [k|] eqn:He; [|done]. by rewrite (Hh e k He).
Qed.

Lemma throws_ret (P : exn → Prop) (a : A) : throws P (mret a).
Proof. by intros w s e. Qed.

Lemma throws_raise (P : exn → Prop) (e : exn) : P e → throws P (raise e : M A).
Proof. by intros He w s e' [= <-]. Qed.

Lemma throws_bind (P : exn → Prop) (m : M A) (f : A → M B) :
  throws P m → (∀ a, throws P (f a)) → throws P (m ≫= f).
Proof.
  intros Hm Hf w s e. unfold mbind, M_bind. specialize (Hm w s).
  destruct (m w s) as [[e'|a] s']; [intros [= <-]; by apply Hm|]. apply Hf.
Qed.

Lemma throws_try (P Q : exn → Prop) (m : M A) (h : exn → option (M A)) :
  throws Q m →
  (∀ e, Q e → match h e with Some k => throws P k | None => P e end) →
  throws P (try_except m h).
Proof.
  intros Hm Hh w s e. unfold try_except. specialize (Hm w s).
  destruct (m w s) as [[e'|a] s']; [|done].
  specialize (Hh e' (Hm e' eq_refl)).
  destruct (h e') as [k|]; [apply Hh|]. by intros [= <-].
Qed.

End MonadLaws.

Lemma keeps_get_registry : keeps_registry get_registry.
Proof. done. Qed.

Lemma keeps_httpx_get (url : string) : keeps_registry (httpx_get url).
Proof.
  intros w s. unfold httpx_get. by destruct (http_get w (snd s) url) as [[]|].
Qed.

Lemma keeps_open_read (path : string) : keeps_registry (open_read path).
Proof. intros w s. unfold open_read. by destruct (read_file w (snd s) path). Qed.

Lemma keeps_raise_for_status (r : response) : keeps_registry (raise_for_status r).
Proof. unfold raise_for_status. by destruct (status_error r). Qed.

Lemma throws_get_registry (P : exn → Prop) : throws P get_registry.
Proof. by intros w s e. Qed.

Lemma throws_httpx_get (url : string) :
  throws (λ e, is_http_error e ∨ ∃ m, e = InvalidURL m) (httpx_get url).
Proof.
  intros w s e. unfold httpx_get.
  destruct (http_get w (snd s) url) as [[m|m]|resp]; [| |done];
    intros [= <-]; [right; by exists m|by left].
Qed.

Lemma throws_raise_for_status (r : response) :
  throws is_http_error (raise_for_status r).
Proof.
  unfold raise_for_status. destruct (status_error r); [|by apply throws_ret].
  by apply throws_raise.
Qed.

Lemma keeps_or_else {A} (h1 h2 : exn → option (M A)) :
  (∀ e k, h1 e = Some k → keeps_registry k) →
  (∀ e k, h2 e = Some k → keeps_registry k) →
  ∀ e k, or_else h1 h2 e = Some k → keeps_registry k.
Proof.
  intros H1 H2 e k. unfold or_else.
  destruct (h1 e) as [k1|] eqn:He; [intros [= <-]; eauto|eauto].
Qed.

Lemma keeps_on_http_error {A} (f : exn → M A) :
  (∀ e, keeps_registry (f e)) →
  ∀ e k, on_http_error f e = Some k → keeps_registry k.
Proof. intros Hf [] k [= <-]; apply Hf. Qed.

Lemma keeps_on_exception {A} (f : exn → M A) :
  (∀ e, keeps_registry (f e)) →
  ∀ e k, on_exception f e = Some k → keeps_registry k.
Proof. intros Hf e k [= <-]; apply Hf. Qed.


Lemma keeps_message_clauses {A} (f g : exn → A) :
  ∀ e k, or_else (on_http_error (λ e, mret (f e)))
           (on_exception (λ e, mret (g e))) e = Some k →
         keeps_registry k.
Proof.
  apply keeps_or_else; [apply keeps_on_http_error|apply keeps_on_exception];
    intros ?; apply keeps_ret.
Qed.

Create HintDb keeps.
#[local] Hint Resolve keeps_ret keeps_raise keeps_lift keeps_get_registry
  keeps_httpx_get keeps_open_read keeps_raise_for_status : keeps.
#[local] Hint Extern 2 (keeps_registry (_ ≫= _)) =>
  apply keeps_bind; [|intros ?] : keeps.
#[local] Hint Extern 2 (keeps_registry (try_except _ _)) =>
  apply keeps_try : keeps.
#[local] Hint Extern 3 (∀ e k, or_else _ _ e = Some k → keeps_registry k) =>
  apply keeps_or_else : keeps.
#[local] Hint Extern 3 (∀ e k, on_http_error _ e = Some k → keeps_registry k) =>
  apply keeps_on_http_error; intros ? : keeps.
#[local] Hint Extern 3 (∀ e k, on_exception _ e = Some k → keeps_registry k) =>
  apply keeps_on_exception; intros ? : keeps.

(** ** What each tool does to the registry *)

Section Tools.
Variable L : Library.

Lemma keeps_list_doc_sources : keeps_registry (list_doc_sources L).
Proof. unfold list_doc_sources. auto with keeps. Qed.

Lemma keeps_fetch_docs (url : string) : keeps_registry (fetch_docs L url).
Proof.
  unfold fetch_docs. apply keeps_bind; [auto with keeps|]. intros r.
  repeat case_match; auto 10 with keeps.
Qed.

Lemma keeps_fetch_target (d target : string) :
  keeps_registry (fetch_target L d target).
Proof. unfold fetch_target. case_match; auto 10 with keeps. Qed.

Lemma keeps_select_and_fetch (u q d : string) (urls : list string) :
  keeps_registry (select_and_fetch L u q d urls).
Proof.
  unfold select_and_fetch.
  repeat case_match; auto using keeps_fetch_target with keeps.
Qed.

Lemma keeps_fetch_index (u : string) : keeps_registry (fetch_index L u).
Proof. unfold fetch_index. auto 10 with keeps. Qed.

Lemma keeps_query_external_docs_smart (u q : string) :
  keeps_registry (query_external_docs_smart L u q).
Proof.
  unfold query_external_docs_smart.
  apply keeps_try; [|apply keeps_message_clauses].
  apply keeps_bind; [apply keeps_fetch_index|].
  intros [d urls]. apply keeps_select_and_fetch.
Qed.

Lemma keeps_list_external_docs (u : string) :
  keeps_registry (list_external_docs L u).
Proof.
  unfold list_external_docs.
  apply keeps_try; [|apply keeps_message_clauses].
  apply keeps_bind; [apply keeps_fetch_index|].
  intros [d urls]. apply keeps_ret.
Qed.

(** A GET that failed in transport or by its status was not refused. *)
Lemma validating_error_not_refused (w : World) (u m : string) :
  validating_error w u = Some m → refused w u = None.
Proof.
  unfold validating_error, refused.
  by destruct (http_get w [] u) as [[]|].
Qed.

(** A GET that gave a response was not refused. *)
Lemma response_not_refused (w : World) (u : string) (resp : response) :
  http_get w [] u = inr resp →
  refused w u = None ∧ validating_error w u = status_error resp.
Proof. unfold validating_error, refused. by intros ->. Qed.

(** [add_doc_source], case by case. *)
Lemma run_add_doc_source (n u d : string) (w : World) (r : Registry) :
  run (add_doc_source L n u d) w r =
  match refused w u with
  | Some m => (inr ("Error adding documentation source: " +:+ m), r, [])
  | None =>
      match validating_error w u with
      | Some m =>
          (inr ("Error validating URL " +:+ u +:+ ": " +:+ m), r, [EvGet u])
      | None =>
          let r1 := with_source r (new_source n u d) in
          let done_ := "Successfully added documentation source '" +:+ n
                       +:+ "' with URL: " +:+ u in
          if _is_http_or_https u then
            match extract_domain L u with
            | inl e =>
                (inr ("Error adding documentation source: " +:+ exn_str e),
                 r1, [EvGet u])
            | inr new_domain =>
                (inr done_,
                 if bool_decide ("*" ∉ domains r)
                 then with_domain r1 new_domain else r1,
                 [EvGet u])
            end
          else (inr done_, r1, [EvGet u])
      end
  end.
Proof.
  unfold run, add_doc_source, refused, validating_error, try_except, mbind,
    M_bind, httpx_get, raise_for_status. simpl.
  destruct (http_get w [] u) as [[m|m]|resp]; [done|done|]. simpl.
  destruct (status_error resp) as [m|]; [done|]. simpl.
  destruct (_is_http_or_https u); [|done]. unfold lift.
  destruct (extract_domain L u) as [e|nd] eqn:He.
  { by apply extract_domain_raises in He as [m ->]. }
  simpl. by destruct (bool_decide ("*" ∉ domains r)).
Qed.

(** [remove_doc_source], case by case. *)
Lemma run_remove_doc_source (n : string) (w : World) (r : Registry) :
  run (remove_doc_source n) w r =
  match find_source n 0 (doc_sources r) with
  | Some (i, removed_source) =>
      (inr ("Successfully removed documentation source '" +:+ n
            +:+ "' (URL: " +:+ llms_txt removed_source +:+ ")"),
       {| doc_sources := delete i (doc_sources r);
          domains := domains r;
          allowed_local_files := allowed_local_files r |},
       [])
  | None =>
      (inr ("Documentation source '" +:+ n
            +:+ "' not found. Available sources: "
            +:+ Py.join ", "
                  ((λ source, default "unnamed" (name source))
                     <$> doc_sources r)),
       r, [])
  end.
Proof.
  unfold run, remove_doc_source, mbind, M_bind. simpl.
  by destruct (find_source n 0 (doc_sources r)) as [[i e]|].
Qed.

Lemma run_registry {X} (m : M X) (w : World) (r : Registry) :
  keeps_registry m → snd (fst (run m w r)) = r.
Proof.
  intros Hm. unfold run. specialize (Hm w (r, [])).
  by destruct (m w (r, [])) as [x [r' t]].
Qed.

(** The registry after a call: only [add_doc_source] and
    [remove_doc_source] change it. *)
Lemma after_cases (c : call) (w : World) (r : Registry) :
  after L c w r = r
  ∨ (∃ n u d, c = AddDocSource n u d ∧ validating_error w u = None
       ∧ (after L c w r = with_source r (new_source n u d)
          ∨ ∃ new_domain,
              _is_http_or_https u = true
              ∧ extract_domain L u = inr new_domain
              ∧ ("*" ∉ domains r)
              ∧ after L c w r
                = with_domain (with_source r (new_source n u d)) new_domain))
  ∨ (∃ n i e, c = RemoveDocSource n
       ∧ find_source n 0 (doc_sources r) = Some (i, e)
       ∧ after L c w r
         = {| doc_sources := delete i (doc_sources r);
              domains := domains r;
              allowed_local_files := allowed_local_files r |}).
Proof.
  unfold after. destruct c as [|url|u q|u|n u d|n]; simpl tool.
  - left. apply run_registry, keeps_list_doc_sources.
  - left. apply run_registry, keeps_fetch_docs.
  - left. apply run_registry, keeps_query_external_docs_smart.
  - left. apply run_registry, keeps_list_external_docs.
  - rewrite run_add_doc_source.
    destruct (refused w u) as [m|] eqn:Hr; [by left|].
    destruct (validating_error w u) as [m|] eqn:Hv; [by left|].
    right; left. exists n, u, d. split; [done|]. split; [done|].
    simpl. destruct (_is_http_or_https u) eqn:Hu; [|by left].
    destruct (extract_domain L u) as [e|nd] eqn:Hd; [by left|]. simpl.
    case_bool_decide; [|by left]. right. by exists nd.
  - rewrite run_remove_doc_source.
    destruct (find_source n 0 (doc_sources r)) as [[i e]|] eqn:Hf; [|by left].
    right; right. by exists n, i, e.
Qed.
End Tools.

(** ** The allow-sets over the life of the registry *)

Section AllowSets.
Variable L : Library.

(** One call: the origins grow or stay, the local paths stay. *)
Lemma after_allow_sets (c : call) (w : World) (r : Registry) :
  domains r ⊆ domains (after L c w r)
  ∧ allowed_local_files (after L c w r) = allowed_local_files r.
Proof.
  destruct (after_cases L c w r)
    as [->|[(n & u & d & _ & _ & [->|(nd & _ & _ & _ & ->)])
           |(n & i & e & _ & _ & ->)]];
    simpl; split; set_solver.
Qed.

(** One call keeps a wildcard allow-set as it is. *)
Lemma after_wildcard (c : call) (w : World) (r : Registry) :
  "*" ∈ domains r → domains (after L c w r) = domains r.
Proof.
  intros Hw.
  by destruct (after_cases L c w r)
    as [->|[(n & u & d & _ & _ & [->|(nd & _ & _ & ? & ->)])
           |(n & i & e & _ & _ & ->)]].
Qed.

(** One call does not bring the wildcard into the allow-set. *)
Lemma after_no_wildcard (c : call) (w : World) (r : Registry) :
  "*" ∉ domains r → "*" ∉ domains (after L c w r).
Proof.
  intros Hw.
  destruct (after_cases L c w r)
    as [->|[(n & u & d & _ & _ & [->|(nd & _ & Hd & _ & ->)])
           |(n & i & e & _ & _ & ->)]]; simpl; try done.
  pose proof (extract_domain_not_wildcard L _ _ Hd) as Hnd.
  apply not_elem_of_union. split; [done|]. by apply not_elem_of_singleton.
Qed.

(** C6.  Over every sequence of calls of the tools, [add_doc_source] and
    [remove_doc_source] among them, the allowed origins only grow or
    stay and the allowed local paths stay; in particular
    [remove_doc_source] leaves both allow-sets as they are. *)
Theorem allow_sets_never_shrink (r0 r : Registry) :
  reachable L r0 r →
  domains r0 ⊆ domains r
  ∧ allowed_local_files r0 ⊆ allowed_local_files r
  ∧ ∀ name0 w,
      domains (after L (RemoveDocSource name0) w r) = domains r
      ∧ allowed_local_files (after L (RemoveDocSource name0) w r)
        = allowed_local_files r.
Proof.
  intros Hreach. split; [|split].
  - induction Hreach as [|r c w Hr IH Hok]; [done|].
    etrans; [apply IH|apply after_allow_sets].
  - induction Hreach as [|r c w Hr IH Hok]; [done|].
    by rewrite (proj2 (after_allow_sets c w r)).
  - intros n w. unfold after. simpl tool. rewrite run_remove_doc_source.
    by destruct (find_source n 0 (doc_sources r)) as [[i e]|].
Qed.
End AllowSets.

(** ** [create_server] on concrete sources *)

Example create_example_registry :
  create_server posix (world_serving "") [example_source; local_source] None
  = inr example_registry.
Proof. vm_compute. reflexivity. Qed.

Example create_wildcard_registry :
  create_server posix (world_serving "") [example_source; local_source]
    (Some ["https://docs.example.org/"; "*"])
  = inr wildcard_registry.
Proof. vm_compute. reflexivity. Qed.

Example create_fails_on_missing_file :
  create_server posix world_offline [example_source; local_source] None
  = inl (FileNotFoundError "Local file not found: /srv/app/docs/llms.txt").
Proof. vm_compute. reflexivity. Qed.

Lemma allow_sets_never_shrink_witness :
  let r :=
    after posix (RemoveDocSource "Other") world_offline
      (after posix (AddDocSource "Other" "https://other.org/llms.txt" "")
         (world_serving "") example_registry) in
  domains example_registry ⊆ domains r
  ∧ allowed_local_files example_registry ⊆ allowed_local_files r
  ∧ ∀ name0 w,
      domains (after posix (RemoveDocSource name0) w r) = domains r
      ∧ allowed_local_files (after posix (RemoveDocSource name0) w r)
        = allowed_local_files r.
Proof.
  apply (allow_sets_never_shrink posix example_registry).
  apply reachable_call; [|done]. apply reachable_call; [|done].
  apply reachable_init.
Defined.

(** ** The wildcard *)

Section Wildcard.
Variable L : Library.

Lemma create_server_wildcard (w : World) (sources : list DocSource)
    (allowed_domains : list string) (r0 : Registry) :
  "*" ∈ allowed_domains →
  create_server L w sources (Some allowed_domains) = inr r0 →
  domains r0 = {["*"]}.
Proof.
  intros Hw. unfold create_server.
  destruct (verify_local L w _); [done|].
  destruct (extract_domains L _); [done|].
  destruct allowed_domains as [|d ads]; [by apply not_elem_of_nil in Hw|].
  rewrite bool_decide_eq_true_2 by done. by intros [= <-].
Qed.

Lemma reachable_wildcard (r0 r : Registry) :
  reachable L r0 r → domains r0 = {["*"]} → domains r = {["*"]}.
Proof.
  intros Hreach H0. induction Hreach as [|r c w Hr IH Hok]; [done|].
  rewrite after_wildcard; [done|]. rewrite IH. set_solver.
Qed.

Lemma fetch_docs_remote_allowed (w : World) (r : Registry) (url : string) :
  _is_http_or_https url = true →
  "*" ∈ domains r ∨ (∃ d, d ∈ domains r ∧ Py.startswith url d = true) →
  run (fetch_docs L url) w r = fetched L w r url.
Proof.
  intros Hu Hok. unfold run, fetch_docs, fetched, mbind, M_bind. simpl.
  rewrite Hu. simpl.
  replace (bool_decide ("*" ∉ domains r)
           && negb (existsb (λ domain, Py.startswith url domain)
                      (elements (domains r)))) with false.
  - unfold try_except, httpx_get, raise_for_status. simpl.
    destruct (http_get w [] url) as [[m|m]|resp]; [done|done|]. simpl.
    by destruct (status_error resp).
  - symmetry. apply andb_false_iff. destruct Hok as [Hw|(d & Hd & Hp)].
    + left. by apply bool_decide_eq_false_2; intros ?.
    + right. apply negb_false_iff, existsb_exists. exists d.
      split; [|done]. by apply list_elem_of_In, elem_of_elements.
Qed.

(** C7.  If the extra origins given to [create_server] contain the
    wildcard token, the allowed origins are exactly the wildcard at
    construction and after every sequence of calls of the tools, and
    every remote url passes the origin check of [fetch_docs]: whatever
    the url is, it is handed to httpx, and the call ends as [fetched]
    says, with the outcome of the GET or, for a url that httpx refuses,
    with its [InvalidURL]. *)
Theorem wildcard_absorbs (w0 : World) (sources : list DocSource)
    (allowed_domains : list string) (r0 r : Registry) :
  "*" ∈ allowed_domains →
  create_server L w0 sources (Some allowed_domains) = inr r0 →
  reachable L r0 r →
  domains r0 = {["*"]}
  ∧ domains r = {["*"]}
  ∧ ∀ w url, _is_http_or_https url = true →
             run (fetch_docs L url) w r = fetched L w r url.
Proof.
  intros Hw Hc Hreach.
  pose proof (create_server_wildcard _ _ _ _ Hw Hc) as H0.
  pose proof (reachable_wildcard _ _ Hreach H0) as Hr.
  repeat split; [done..|].
  intros w url Hu. apply fetch_docs_remote_allowed; [done|].
  left. rewrite Hr. set_solver.
Qed.
End Wildcard.

Lemma wildcard_absorbs_witness :
  let r := after posix (AddDocSource "Other" "https://other.org/llms.txt" "")
             (world_serving "") wildcard_registry in
  domains wildcard_registry = {["*"]}
  ∧ domains r = {["*"]}
  ∧ ∀ w url, _is_http_or_https url = true →
             run (fetch_docs posix url) w r = fetched posix w r url.
Proof.
  apply (wildcard_absorbs posix (world_serving "")
           [example_source; local_source]
           ["https://docs.example.org/"; "*"]).
  - compute_done.
  - vm_compute. reflexivity.
  - apply reachable_call; [|done]. apply reachable_init.
Defined.

(** ** Messages that enumerate a set *)

Lemma app_empty_r (s : string) : s +:+ "" = s.
Proof. induction s as [|a s IH]; [done|]. by rewrite app_cons, IH. Qed.

Lemma occurs_in_app_r (d a msg : string) :
  occurs_in d msg → occurs_in d (a +:+ msg).
Proof. intros (x & y & ->). exists (a +:+ x), y. by rewrite app_assoc_s. Qed.

Lemma occurs_in_app_l (d msg b : string) :
  occurs_in d msg → occurs_in d (msg +:+ b).
Proof.
  intros (x & y & ->). exists x, (y +:+ b). by rewrite !app_assoc_s.
Qed.

Lemma join_occurs (sep d : string) (l : list string) :
  d ∈ l → occurs_in d (Py.join sep l).
Proof.
  induction l as [|x l IH]; [by intros ?%not_elem_of_nil|].
  intros [->|Hd]%elem_of_cons.
  - destruct l as [|y l]; simpl.
    + exists "", "". by rewrite app_empty_r.
    + by exists "", (sep +:+ String.concat sep (y :: l)).
  - destruct l as [|y l]; [by apply not_elem_of_nil in Hd|].
    change (Py.join sep (x :: y :: l))
      with (x +:+ sep +:+ Py.join sep (y :: l)).
    by apply occurs_in_app_r, occurs_in_app_r, IH.
Qed.

(** ** Origin containment *)

Section OriginContainment.
Variable L : Library.

Lemma extract_domains_no_wildcard (l : list DocSource) (ds : list string) :
  extract_domains L l = inr ds → "*" ∉ ds.
Proof.
  revert ds. induction l as [|e l IH]; intros ds; simpl.
  - intros [= <-]. apply not_elem_of_nil.
  - destruct (extract_domain L (llms_txt e)) as [|d] eqn:Hd; [done|].
    destruct (extract_domains L l) as [|ds']; [done|].
    intros [= <-]. apply not_elem_of_cons. split; [|by apply IH].
    intros Heq. by apply (extract_domain_not_wildcard L _ _ Hd).
Qed.

Lemma create_server_no_wildcard (w : World) (sources : list DocSource)
    (allowed_domains : option (list string)) (r0 : Registry) :
  without_wildcard allowed_domains →
  create_server L w sources allowed_domains = inr r0 →
  "*" ∉ domains r0.
Proof.
  intros Hw. unfold create_server.
  destruct (verify_local L w _); [done|].
  destruct (extract_domains L _) as [|ds] eqn:Hds; [done|].
  apply extract_domains_no_wildcard in Hds.
  destruct allowed_domains as [[|d ads]|]; intros [= <-]; cbn [domains];
    rewrite ?elem_of_list_to_set; try done.
  specialize (Hw _ eq_refl).
  rewrite bool_decide_eq_false_2 by done.
  rewrite elem_of_union, elem_of_list_to_set. intros [H|H]; [done|].
  by apply Hw, (elem_of_list_to_set (C:=gset string)).
Qed.

Lemma reachable_no_wildcard (r0 r : Registry) :
  reachable L r0 r → "*" ∉ domains r0 → "*" ∉ domains r.
Proof.
  intros Hreach H0. induction Hreach as [|r c w Hr IH Hok]; [done|].
  by apply after_no_wildcard.
Qed.

Lemma fetch_docs_remote_rejected (w : World) (r : Registry) (url : string) :
  _is_http_or_https url = true →
  "*" ∉ domains r →
  (∀ d, d ∈ domains r → Py.startswith url d = false) →
  run (fetch_docs L url) w r = (inr (origin_not_allowed r), r, []).
Proof.
  intros Hu Hw Hno. unfold run, fetch_docs, mbind, M_bind. simpl.
  rewrite Hu. simpl. rewrite bool_decide_eq_true_2 by done.
  replace (existsb _ _) with false; [done|].
  symmetry. apply not_true_is_false.
  intros (d & Hd%list_elem_of_In%elem_of_elements & Hp)%existsb_exists.
  by rewrite (Hno d Hd) in Hp.
Qed.

(** C1.  In a registry built without the wildcard token, and after any
    sequence of calls of the tools, [fetch_docs] on a remote url of
    which no allowed origin is a prefix returns the text that enumerates
    the allowed origins, leaves the registry as it is and makes no GET. *)
Theorem fetch_docs_origin_containment (w0 w : World)
    (sources : list DocSource) (allowed_domains : option (list string))
    (r0 r : Registry) (url : string) :
  without_wildcard allowed_domains →
  create_server L w0 sources allowed_domains = inr r0 →
  reachable L r0 r →
  _is_http_or_https url = true →
  (∀ d, d ∈ domains r → Py.startswith url d = false) →
  run (fetch_docs L url) w r = (inr (origin_not_allowed r), r, [])
  ∧ ∀ d, d ∈ domains r → occurs_in d (origin_not_allowed r).
Proof.
  intros Hw Hc Hreach Hu Hno. split.
  - apply fetch_docs_remote_rejected; [done| |done].
    eapply reachable_no_wildcard; [done|].
    by eapply create_server_no_wildcard.
  - intros d Hd. apply occurs_in_app_r, join_occurs.
    by apply elem_of_elements.
Qed.

(** The same, read from the other side: a GET by [fetch_docs] means that
    the url is local to an allowed origin. *)
Lemma fetch_docs_get_allowed (w : World) (r : Registry) (url u : string) :
  "*" ∉ domains r →
  EvGet u ∈ snd (run (fetch_docs L url) w r) →
  u = url ∧ ∃ d, d ∈ domains r ∧ Py.startswith url d = true.
Proof.
  intros Hw. unfold run, fetch_docs, mbind, M_bind. simpl.
  destruct (_is_http_or_https url) eqn:Hu; simpl.
  - rewrite bool_decide_eq_true_2 by done. simpl.
    destruct (existsb _ _) eqn:Hex; simpl; [|by intros ?%not_elem_of_nil].
    apply existsb_exists in Hex
      as (d & Hd%list_elem_of_In%elem_of_elements & Hp).
    unfold try_except, httpx_get, raise_for_status. simpl.
    destruct (http_get w [] url) as [[m|m]|resp]; simpl.
    + by intros ?%not_elem_of_nil.
    + intros [= ->]%list_elem_of_singleton. eauto.
    + destruct (status_error resp); simpl;
        intros [= ->]%list_elem_of_singleton; eauto.
  - case_bool_decide; simpl; [by intros ?%not_elem_of_nil|].
    unfold try_except, open_read. simpl.
    destruct (read_file w [] _); simpl; by intros [=]%list_elem_of_singleton.
Qed.
End OriginContainment.

Lemma fetch_docs_origin_containment_witness :
  let r := after posix (AddDocSource "Other" "https://other.org/llms.txt" "")
             (world_serving "") example_registry in
  run (fetch_docs posix "https://evil.test/page") (world_serving "") r
  = (inr (origin_not_allowed r), r, [])
  ∧ ∀ d, d ∈ domains r → occurs_in d (origin_not_allowed r).
Proof.
  apply (fetch_docs_origin_containment posix (world_serving "")
           (world_serving "") [example_source; local_source] None
           example_registry).
  - intros ads. discriminate.
  - vm_compute. reflexivity.
  - apply reachable_call; [apply reachable_init|exact I].
  - reflexivity.
  - intros d Hd%elem_of_elements. revert d Hd. apply Forall_forall.
    compute_done.
Defined.

Example origin_added_by_add_doc_source :
  domains (after posix (AddDocSource "Other" "https://other.org/llms.txt" "")
             (world_serving "") example_registry)
  = {["https://example.com/"; "https://other.org/"]}.
Proof. vm_compute. reflexivity. Qed.

Example origin_not_allowed_text :
  origin_not_allowed example_registry
  = "Error: URL not allowed. Must start with one of the following domains: https://example.com/".
Proof. vm_compute. reflexivity. Qed.

(** ** [add_doc_source] and [remove_doc_source] *)

Section RegistryMutation.
Variable L : Library.

(** C5.  When the validating GET of [add_doc_source] fails, in transport
    or by its status, the tool returns the error text that names the url
    and the failure, and the registry (sources and both allow-sets) is
    the one before the call; the GET is the only event. *)
Theorem add_doc_source_failed_validation (name0 url description0 m : string)
    (w : World) (r : Registry) :
  validating_error w url = Some m →
  run (add_doc_source L name0 url description0) w r
  = (inr ("Error validating URL " +:+ url +:+ ": " +:+ m), r, [EvGet url]).
Proof.
  intros Hv.
  by rewrite run_add_doc_source, (validating_error_not_refused _ _ _ Hv), Hv.
Qed.

(** The other side of C5: a registry changed by [add_doc_source] means
    that the validating GET succeeded. *)
Lemma add_doc_source_changes_after_get (name0 url description0 : string)
    (w : World) (r : Registry) :
  after L (AddDocSource name0 url description0) w r ≠ r →
  validating_error w url = None
  ∧ doc_sources (after L (AddDocSource name0 url description0) w r)
    = doc_sources r ++ [new_source name0 url description0].
Proof.
  unfold after. simpl tool. rewrite run_add_doc_source.
  destruct (refused w url) eqn:Hr.
  { intros Hne. by destruct Hne. }
  destruct (validating_error w url); [done|]. intros _. split; [done|].
  simpl. destruct (_is_http_or_https url); [|done].
  destruct (extract_domain L url); [done|]. by case_bool_decide.
Qed.

Lemma find_source_spec (name0 : string) (i0 : nat) (l : list DocSource) :
  match find_source name0 i0 l with
  | Some (i, e) =>
      ∃ k, i = i0 + k ∧ l !! k = Some e ∧ name e = Some name0
           ∧ ∀ j e', j < k → l !! j = Some e' → name e' ≠ Some name0
  | None => ∀ e, e ∈ l → name e ≠ Some name0
  end.
Proof.
  revert i0. induction l as [|x l IH]; intros i0; simpl.
  - by intros e ?%not_elem_of_nil.
  - case_bool_decide as Hx.
    + exists 0. repeat split; [lia|done|]. intros j e' Hj. lia.
    + specialize (IH (S i0)).
      destruct (find_source name0 (S i0) l) as [[i e]|].
      * destruct IH as (k & -> & Hk & He & Hfirst). exists (S k).
        repeat split; [lia|done..|].
        intros [|j] e' Hj; simpl; [by intros [= <-]|].
        apply Hfirst. lia.
      * intros e [->|He]%elem_of_cons; auto.
Qed.

Lemma unnamed_delete (l : list DocSource) (k : nat) (e : DocSource) :
  l !! k = Some e → name e ≠ None → unnamed (delete k l) = unnamed l.
Proof.
  unfold unnamed. revert k. induction l as [|x l IH]; intros [|k]; simpl; try done.
  - intros [= ->] He. by rewrite filter_cons_False.
  - intros Hk He. rewrite !filter_cons. by rewrite (IH k Hk He).
Qed.

(** C10.  [remove_doc_source] removes nothing but the first source whose
    stored name is the name given, so the sources without a name are the
    same after the call as before it, for every name; and when no source
    matches, the registry is unchanged and the text lists the sources by
    name, one without a name as [unnamed]. *)
Theorem remove_doc_source_keeps_unnamed (name0 : string) (w : World)
    (r : Registry) :
  unnamed (doc_sources (after L (RemoveDocSource name0) w r))
  = unnamed (doc_sources r)
  ∧ match find_source name0 0 (doc_sources r) with
    | Some (i, e) =>
        doc_sources r !! i = Some e ∧ name e = Some name0
        ∧ doc_sources (after L (RemoveDocSource name0) w r)
          = delete i (doc_sources r)
    | None =>
        (∀ e, e ∈ doc_sources r → name e ≠ Some name0)
        ∧ run (remove_doc_source name0) w r
          = (inr ("Documentation source '" +:+ name0
                  +:+ "' not found. Available sources: "
                  +:+ Py.join ", "
                        ((λ e, match name e with
                               | Some n => n
                               | None => "unnamed"
                               end) <$> doc_sources r)),
             r, [])
    end.
Proof.
  unfold after. simpl tool. rewrite run_remove_doc_source.
  pose proof (find_source_spec name0 0 (doc_sources r)) as Hf.
  destruct (find_source name0 0 (doc_sources r)) as [[i e]|]; simpl.
  - destruct Hf as (k & -> & Hk & He & _). simpl.
    split; [|done]. apply (unnamed_delete _ _ e); [done|]. by rewrite He.
  - done.
Qed.
End RegistryMutation.

Lemma add_doc_source_failed_validation_witness :
  run (add_doc_source posix "Other" "https://other.org/llms.txt" "")
    world_not_found example_registry
  = (inr "Error validating URL https://other.org/llms.txt: Client error '404 Not Found'",
     example_registry, [EvGet "https://other.org/llms.txt"]).
Proof.
  apply (add_doc_source_failed_validation posix "Other"
           "https://other.org/llms.txt" "" "Client error '404 Not Found'").
  reflexivity.
Defined.

Example remove_unknown_source :
  fst (fst (run (remove_doc_source "ghost") world_offline example_registry))
  = inr "Documentation source 'ghost' not found. Available sources: Example, unnamed".
Proof. vm_compute. reflexivity. Qed.

Example remove_named_source :
  doc_sources (after posix (RemoveDocSource "Example") world_offline example_registry)
  = [local_source].
Proof. vm_compute. reflexivity. Qed.

(** ** Local sources and the allowed local paths *)

Section LocalPaths.
Variable L : Library.

Lemma create_server_local_paths (w : World) (sources : list DocSource)
    (allowed_domains : option (list string)) (r0 : Registry) :
  create_server L w sources allowed_domains = inr r0 →
  local_paths_allowed L r0.
Proof.
  unfold create_server.
  destruct (verify_local L w _); [done|].
  destruct (extract_domains L _); [done|].
  intros [= <-] e He Hl. cbn [doc_sources allowed_local_files] in *.
  apply elem_of_list_to_set, list_elem_of_fmap. exists e. split; [done|].
  by apply list_elem_of_filter.
Qed.

Lemma after_local_paths (c : call) (w : World) (r : Registry) :
  adds_remote c w → local_paths_allowed L r →
  local_paths_allowed L (after L c w r).
Proof.
  intros Hok Hr.
  destruct (after_cases L c w r)
    as [->|[(n & u & d & -> & Hv & Hafter)|(n & i & e & _ & _ & ->)]];
    [done| |].
  - assert (Hu : _is_http_or_https u = true)
      by (destruct Hok as [|Hne]; [done|by destruct Hne]).
    assert (Hsrc : doc_sources (after L (AddDocSource n u d) w r)
                   = doc_sources r ++ [new_source n u d]
                   ∧ allowed_local_files (after L (AddDocSource n u d) w r)
                     = allowed_local_files r).
    { by destruct Hafter as [->|(nd & _ & _ & _ & ->)]. }
    destruct Hsrc as [Hs Ha]. intros e He Hl. rewrite Ha. rewrite Hs in He.
    apply elem_of_app in He as [He|He%list_elem_of_singleton]; [by apply Hr|].
    subst e. unfold is_remote in Hl. simpl in Hl. congruence.
  - intros e' He' Hl. cbn [doc_sources allowed_local_files] in *.
    apply Hr; [|done]. by eapply list_elem_of_delete_inv.
Qed.

(** C8, as amended.  In every registry reached from a successful
    construction by calls of the tools in which every [add_doc_source]
    whose validating GET succeeds is given a remote url, every local
    source has its normalized path in the allowed local paths, and that
    set is the one of the construction. *)
Theorem local_sources_allowed (w0 : World) (sources : list DocSource)
    (allowed_domains : option (list string)) (r0 r : Registry) :
  create_server L w0 sources allowed_domains = inr r0 →
  reachable_by L adds_remote r0 r →
  local_paths_allowed L r
  ∧ allowed_local_files r = allowed_local_files r0.
Proof.
  intros Hc Hreach. induction Hreach as [|r c w Hr [IH1 IH2] Hok].
  - split; [by eapply create_server_local_paths|done].
  - split; [by apply after_local_paths|].
    by rewrite (proj2 (after_allow_sets L c w r)).
Qed.
End LocalPaths.

Lemma local_sources_allowed_witness :
  let r :=
    after posix (RemoveDocSource "Example") world_offline
      (after posix (AddDocSource "Other" "https://other.org/llms.txt" "")
         (world_serving "") example_registry) in
  local_paths_allowed posix r
  ∧ allowed_local_files r = allowed_local_files example_registry.
Proof.
  apply (local_sources_allowed posix (world_serving "")
           [example_source; local_source] None).
  - vm_compute. reflexivity.
  - apply reachable_call; [|exact I]. apply reachable_call; [|by left].
    apply reachable_init.
Defined.

(** C8, as stated, fails: [add_doc_source] accepts a reference that
    [_is_http_or_https] classifies as local when its GET succeeds (here a
    url with the scheme in capitals), and the source is appended while
    the allowed local paths stay as they were. *)
Lemma local_source_outside_allowed_paths :
  let r := after posix (AddDocSource "Caps" "HTTP://example.com/llms.txt" "")
             (world_serving "") example_registry in
  create_server posix (world_serving "") [example_source; local_source] None
  = inr example_registry
  ∧ reachable posix example_registry r
  ∧ (new_source "Caps" "HTTP://example.com/llms.txt" "" ∈ doc_sources r)
  ∧ is_remote (new_source "Caps" "HTTP://example.com/llms.txt" "") = false
  ∧ _normalize_path posix "HTTP://example.com/llms.txt"
    = "/srv/app/HTTP:/example.com/llms.txt"
  ∧ ("/srv/app/HTTP:/example.com/llms.txt" ∉ allowed_local_files r)
  ∧ ¬ local_paths_allowed posix r.
Proof.
  assert (Hin : new_source "Caps" "HTTP://example.com/llms.txt" ""
                ∈ doc_sources
                    (after posix
                       (AddDocSource "Caps" "HTTP://example.com/llms.txt" "")
                       (world_serving "") example_registry))
    by compute_done.
  assert (Hout : "/srv/app/HTTP:/example.com/llms.txt"
                 ∉ allowed_local_files
                     (after posix
                        (AddDocSource "Caps" "HTTP://example.com/llms.txt" "")
                        (world_serving "") example_registry))
    by compute_done.
  split; [vm_compute; reflexivity|].
  split; [apply reachable_call; [apply reachable_init|exact I]|].
  split; [exact Hin|].
  split; [reflexivity|].
  split; [vm_compute; reflexivity|].
  split; [exact Hout|].
  intros Hall. apply Hout. exact (Hall _ Hin eq_refl).
Qed.

(** ** Path containment *)

Section PathContainment.
Variable L : Library.

Lemma set_str_occurs (s : gset string) (p : string) :
  p ∈ s → occurs_in (repr L p) (set_str L s).
Proof.
  intros Hp%elem_of_elements. unfold set_str.
  destruct (elements s) as [|x l] eqn:Hl; [by apply not_elem_of_nil in Hp|].
  apply occurs_in_app_r, occurs_in_app_l, join_occurs.
  apply list_elem_of_fmap. by exists p.
Qed.

(** [fetch_docs] on a local reference whose path is allowed: the file is
    opened, and a failure to read it is returned as text. *)
Lemma fetch_docs_local_allowed (w : World) (r : Registry) (ref : string) :
  _is_http_or_https ref = false →
  _normalize_path L ref ∈ allowed_local_files r →
  run (fetch_docs L ref) w r
  = (inr match read_file w [] (_normalize_path L ref) with
         | inl m => "Error reading local file: " +:+ m
         | inr content => markdownify L content
         end,
     r, [EvOpen (_normalize_path L ref)]).
Proof.
  intros Hu Hp. unfold run, fetch_docs, mbind, M_bind. simpl.
  rewrite Hu. simpl. rewrite bool_decide_eq_false_2 by (by intros ?).
  unfold try_except, open_read. simpl.
  by destruct (read_file w [] (_normalize_path L ref)).
Qed.

(** [fetch_docs] on a local reference whose path is not allowed: the
    [ValueError] is raised before any file is opened. *)
Lemma fetch_docs_local_rejected (w : World) (r : Registry) (ref : string) :
  _is_http_or_https ref = false →
  _normalize_path L ref ∉ allowed_local_files r →
  run (fetch_docs L ref) w r
  = (inl (ValueError (path_not_allowed L r (_normalize_path L ref))), r, []).
Proof.
  intros Hu Hp. unfold run, fetch_docs, mbind, M_bind. simpl.
  rewrite Hu. simpl. by rewrite bool_decide_eq_true_2.
Qed.

(** C2.  [fetch_docs] on a local reference whose normalized path is not
    in the allowed local paths fails with the message that names the
    path and prints the whole allowed set (each member occurs in it);
    the registry is unchanged and no file is opened. *)
Theorem fetch_docs_path_containment (w : World) (r : Registry) (ref : string) :
  _is_http_or_https ref = false →
  _normalize_path L ref ∉ allowed_local_files r →
  run (fetch_docs L ref) w r
  = (inl (ValueError (path_not_allowed L r (_normalize_path L ref))), r, [])
  ∧ ∀ p, p ∈ allowed_local_files r →
         occurs_in (repr L p) (path_not_allowed L r (_normalize_path L ref)).
Proof.
  intros Hu Hp. split; [by apply fetch_docs_local_rejected|].
  intros p Hin. unfold path_not_allowed.
  by apply occurs_in_app_r, occurs_in_app_r, occurs_in_app_r, set_str_occurs.
Qed.

(** The same, read from the other side: a file opened by [fetch_docs] is
    the normalized reference, and it is an allowed file. *)
Lemma fetch_docs_open_allowed (w : World) (r : Registry) (ref p : string) :
  EvOpen p ∈ snd (run (fetch_docs L ref) w r) →
  p = _normalize_path L ref ∧ p ∈ allowed_local_files r.
Proof.
  destruct (_is_http_or_https ref) eqn:Hu.
  - unfold run, fetch_docs, mbind, M_bind. simpl. rewrite Hu. simpl.
    destruct (_ && _); simpl; [by intros ?%not_elem_of_nil|].
    unfold try_except, httpx_get, raise_for_status. simpl.
    destruct (http_get w [] ref) as [[m|m]|resp]; simpl;
      [by intros ?%not_elem_of_nil|by intros [=]%list_elem_of_singleton|].
    destruct (status_error resp); simpl; by intros [=]%list_elem_of_singleton.
  - destruct (decide (_normalize_path L ref ∈ allowed_local_files r)) as [Hin|Hout].
    + rewrite fetch_docs_local_allowed by done. simpl.
      by intros [= ->]%list_elem_of_singleton.
    + rewrite (fetch_docs_local_rejected w r ref Hu Hout). simpl.
      by intros ?%not_elem_of_nil.
Qed.
End PathContainment.

Lemma fetch_docs_path_containment_witness :
  run (fetch_docs posix "/etc/passwd") (world_serving "root:x:0:0") example_registry
  = (inl (ValueError (path_not_allowed posix example_registry
                        (_normalize_path posix "/etc/passwd"))),
     example_registry, [])
  ∧ ∀ p, p ∈ allowed_local_files example_registry →
         occurs_in (repr posix p)
           (path_not_allowed posix example_registry
              (_normalize_path posix "/etc/passwd")).
Proof.
  apply (fetch_docs_path_containment posix).
  - reflexivity.
  - compute_done.
Defined.

Example path_not_allowed_text :
  path_not_allowed posix example_registry (_normalize_path posix "file:///etc/../etc/passwd")
  = "Local file not allowed: /etc/passwd. Allowed files: {'/srv/app/docs/llms.txt'}".
Proof. vm_compute. reflexivity. Qed.

Example fetch_allowed_file :
  run (fetch_docs posix "file:///srv/app/docs/llms.txt")
    (world_serving "# Docs") example_registry
  = (inr "# Docs", example_registry, [EvOpen "/srv/app/docs/llms.txt"]).
Proof. vm_compute. reflexivity. Qed.

(** ** Index discovery stays in the origin of the index *)

Lemma collect_urls_same_origin (d : string) (found available : list string) :
  (∀ u, u ∈ available → Py.startswith u d = true) →
  ∀ u, u ∈ collect_urls d found available → Py.startswith u d = true.
Proof.
  revert available. induction found as [|x found IH]; intros available Ha;
    [done|]. simpl.
  destruct (Py.startswith _ "http" && _); [|by apply IH].
  destruct (Py.startswith _ d) eqn:Hd; [|by apply IH].
  apply IH. intros u [Hu| ->%list_elem_of_singleton]%elem_of_app; auto.
Qed.

Lemma collect_urls_NoDup (d : string) (found available : list string) :
  NoDup available → NoDup (collect_urls d found available).
Proof.
  revert available. induction found as [|x found IH]; intros available Ha;
    [done|]. simpl.
  destruct (Py.startswith _ "http"); simpl; [|by apply IH].
  case_bool_decide as Hx; simpl; [|by apply IH].
  destruct (Py.startswith _ d); [|by apply IH].
  apply IH, NoDup_app. split; [done|]. split; [|apply NoDup_singleton].
  by intros u Hu ->%list_elem_of_singleton.
Qed.

Lemma available_urls_same_origin (d body u : string) :
  u ∈ available_urls_of d body → Py.startswith u d = true.
Proof.
  apply collect_urls_same_origin. by intros v ?%not_elem_of_nil.
Qed.

Section DiscoveryOrigin.
Variable L : Library.

(** What [fetch_index] returns: the origin of the index, and candidates
    that all start with it, each listed once. *)
Lemma fetch_index_spec (index : string) (w : World) (s s' : Registry * list event)
    (d : string) (urls : list string) :
  fetch_index L index w s = (inr (d, urls), s') →
  extract_domain L index = inr d
  ∧ (∀ u, u ∈ urls → Py.startswith u d = true)
  ∧ NoDup urls
  ∧ s' = (fst s, snd s ++ [EvGet index]).
Proof.
  unfold fetch_index, mbind, M_bind, httpx_get, raise_for_status, lift.
  destruct (http_get w (snd s) index) as [[m|m]|resp]; [done|done|].
  destruct (status_error resp); [done|]. simpl.
  destruct (extract_domain L index) as [e|d']; [done|]. simpl.
  intros [= <- <- <-]. split; [done|].
  split; [apply available_urls_same_origin|].
  split; [apply collect_urls_NoDup, NoDup_nil_2|done].
Qed.

Lemma fetch_index_ok (index : string) (w : World) (s : Registry * list event)
    (resp : response) (d : string) :
  http_get w (snd s) index = inr resp →
  status_error resp = None →
  extract_domain L index = inr d →
  fetch_index L index w s
  = (inr (d, available_urls_of d (text resp)), (fst s, snd s ++ [EvGet index])).
Proof.
  intros Hg Hs Hd.
  unfold fetch_index, mbind, M_bind, httpx_get, raise_for_status, lift.
  by rewrite Hg, Hs, Hd.
Qed.

(** The events of [fetch_index]: the GET of the index, unless httpx
    refuses its url. *)
Lemma fetch_index_trace (index : string) (w : World) (s : Registry * list event) :
  snd (snd (fetch_index L index w s)) = snd s
  ∨ snd (snd (fetch_index L index w s)) = snd s ++ [EvGet index].
Proof.
  unfold fetch_index, mbind, M_bind, httpx_get, raise_for_status, lift.
  destruct (http_get w (snd s) index) as [[m|m]|resp]; [by left|by right|].
  right. destruct (status_error resp); [done|]. simpl.
  by destruct (extract_domain L index).
Qed.

(** The check of the target in [query_external_docs_smart]: a target
    outside [llms_domain] is answered with the security error, without a
    GET. *)
Lemma fetch_target_checked (d target : string) (w : World)
    (s : Registry * list event) :
  Py.startswith target d = false →
  fetch_target L d target w s = (inr (security_error target d), s).
Proof. intros H. unfold fetch_target. by rewrite H. Qed.

Lemma fetch_target_trace (d target : string) (w : World)
    (s : Registry * list event) :
  snd (snd (fetch_target L d target w s)) = snd s
  ∨ (Py.startswith target d = true
     ∧ snd (snd (fetch_target L d target w s)) = snd s ++ [EvGet target]).
Proof.
  unfold fetch_target. destruct (Py.startswith target d); simpl; [|by left].
  unfold mbind, M_bind, httpx_get, raise_for_status.
  destruct (http_get w (snd s) target) as [[m|m]|resp]; [by left|by right|].
  right. split; [done|]. by destruct (status_error resp).
Qed.

Lemma select_and_fetch_trace (index query d : string) (urls : list string)
    (w : World) (s : Registry * list event) :
  snd (snd (select_and_fetch L index query d urls w s)) = snd s
  ∨ ∃ target, target ∈ urls ∧ Py.contains query target = true
      ∧ Py.startswith target d = true
      ∧ snd (snd (select_and_fetch L index query d urls w s))
        = snd s ++ [EvGet target].
Proof.
  unfold select_and_fetch. destruct urls as [|u0 urls]; [by left|].
  destruct (_ || _); [|by left].
  destruct (filter _ (u0 :: urls)) as [|target rest] eqn:Hf; [by left|].
  assert (Ht : target ∈ filter (λ url, Py.contains query url = true) (u0 :: urls))
    by (rewrite Hf; apply list_elem_of_here).
  apply list_elem_of_filter in Ht as [Hq Hin].
  destruct (fetch_target_trace d target w s) as [->|[Hd ->]]; [by left|].
  right. by exists target.
Qed.

(** The selection of [query_external_docs_smart], by the target chosen. *)
Lemma select_and_fetch_none (index query d : string) (urls : list string)
    (w : World) (s : Registry * list event) :
  first_match query urls = None →
  select_and_fetch L index query d urls w s
  = (inr (candidates_answer index query urls), s).
Proof.
  unfold first_match, select_and_fetch, candidates_answer, path_like.
  destruct urls as [|u0 urls]; [done|].
  destruct (_ || _); [|done].
  by destruct (filter _ (u0 :: urls)) as [|target rest].
Qed.

Lemma select_and_fetch_some (index query d target : string)
    (urls : list string) (w : World) (s : Registry * list event) :
  first_match query urls = Some target →
  target ∈ urls
  ∧ select_and_fetch L index query d urls w s = fetch_target L d target w s.
Proof.
  unfold first_match, select_and_fetch, path_like.
  destruct (_ || _); [|done].
  destruct urls as [|u0 urls]; [done|].
  destruct (filter _ (u0 :: urls)) as [|target' rest] eqn:Hf; [done|].
  intros [= ->]. split; [|done].
  assert (Ht : target ∈ filter (λ url, Py.contains query url = true) (u0 :: urls))
    by (rewrite Hf; apply list_elem_of_here).
  by apply list_elem_of_filter in Ht as [_ Hin].
Qed.

Lemma caught_trace {A} (m : M A) (f g : exn → A) (w : World)
    (s : Registry * list event) :
  snd (snd (try_except m
              (or_else (on_http_error (λ e, mret (f e)))
                       (on_exception (λ e, mret (g e)))) w s))
  = snd (snd (m w s)).
Proof.
  unfold try_except. destruct (m w s) as [[e|a] s']; [|done]. by destruct e.
Qed.

(** The events of [list_external_docs]. *)
Lemma list_external_docs_events (index : string) (w : World) (r : Registry)
    (ev : event) :
  ev ∈ snd (run (list_external_docs L index) w r) → ev = EvGet index.
Proof.
  unfold run, list_external_docs.
  pose proof (caught_trace
    (fetch_index L index ≫= λ '(d, urls), mret (listing index d urls))
    (λ e, "Error fetching llms.txt file: " +:+ exn_str e)
    (λ e, "Unexpected error: " +:+ exn_str e) w (r, [])) as Hc.
  destruct (try_except _ _ w (r, [])) as [x [r' t]]. simpl in *. rewrite Hc.
  unfold mbind, M_bind.
  pose proof (fetch_index_trace index w (r, [])) as Ht.
  destruct (fetch_index L index w (r, [])) as [[e|[d urls]] s']; simpl in *;
    destruct Ht as [->| ->]; try (by intros ?%not_elem_of_nil);
    by intros ->%list_elem_of_singleton.
Qed.

(** The events of [query_external_docs_smart]. *)
Lemma query_external_docs_smart_events (index query : string) (w : World)
    (r : Registry) (ev : event) :
  ev ∈ snd (run (query_external_docs_smart L index query) w r) →
  ev = EvGet index
  ∨ ∃ d u, extract_domain L index = inr d ∧ Py.startswith u d = true
           ∧ ev = EvGet u.
Proof.
  unfold run, query_external_docs_smart.
  pose proof (caught_trace
    (fetch_index L index
       ≫= λ '(d, urls), select_and_fetch L index query d urls)
    (λ e, "Error fetching documentation: " +:+ exn_str e)
    (λ e, "Unexpected error: " +:+ exn_str e) w (r, [])) as Hc.
  destruct (try_except _ _ w (r, [])) as [x [r' t]]. simpl in *. rewrite Hc.
  unfold mbind, M_bind.
  pose proof (fetch_index_trace index w (r, [])) as Ht.
  destruct (fetch_index L index w (r, [])) as [[e|[d urls]] s'] eqn:Hf;
    simpl in *.
  - destruct Ht as [->| ->]; [by intros ?%not_elem_of_nil|].
    intros ->%list_elem_of_singleton. by left.
  - apply fetch_index_spec in Hf as (Hd & Hurls & _ & ->). simpl.
    destruct (select_and_fetch_trace index query d urls w (r, [EvGet index]))
      as [->|(target & Hin & _ & Htd & ->)]; simpl.
    + intros ->%list_elem_of_singleton. by left.
    + intros [->| ->%list_elem_of_singleton]%elem_of_cons; [by left|].
      right. by exists d, target.
Qed.

(** The numbered lines of [list_external_docs] are one block for each
    candidate, in order. *)
Lemma format_urls_imap (d : string) (i : nat) (urls : list string) :
  format_urls d i urls
  = foldr String.append ""
      (imap (λ k url,
         fmt_2d (i + k) +:+ ". "
         +:+ Py.strip (Ascii.eqb "/") (erase d url) +:+ nl
         +:+ "    URL: " +:+ url +:+ nl +:+ nl) urls).
Proof.
  revert i. induction urls as [|u urls IH]; intros i; [done|].
  cbn [format_urls imap foldr]. rewrite IH, Nat.add_0_r, !app_assoc_s.
  do 8 f_equal. apply (f_equal (foldr String.append "")).
  apply imap_ext. intros k url _. simpl.
  by rewrite Nat.add_succ_r.
Qed.

Lemma listing_is_text (index d : string) (urls : list string) :
  listing index d urls = listing_text index d urls.
Proof.
  unfold listing, listing_text. destruct urls as [|u urls]; [done|].
  by rewrite format_urls_imap.
Qed.

(** [list_external_docs] when the index is fetched. *)
Lemma run_list_external_docs (index : string) (w : World) (r : Registry)
    (resp : response) (d : string) :
  http_get w [] index = inr resp →
  status_error resp = None →
  extract_domain L index = inr d →
  run (list_external_docs L index) w r
  = (inr (listing index d (available_urls_of d (text resp))), r,
     [EvGet index]).
Proof.
  intros Hg Hs Hd.
  unfold run, list_external_docs, try_except, mbind, M_bind.
  by rewrite (fetch_index_ok index w (r, []) resp d Hg Hs Hd).
Qed.

(** [query_external_docs_smart] when the index is fetched. *)
Lemma run_query_external_docs_smart (index query : string) (w : World)
    (r : Registry) (resp : response) (d : string) :
  http_get w [] index = inr resp →
  status_error resp = None →
  extract_domain L index = inr d →
  run (query_external_docs_smart L index query) w r
  = smart_answer L w r index query (available_urls_of d (text resp)).
Proof.
  intros Hg Hs Hd.
  unfold run, query_external_docs_smart, try_except, mbind, M_bind.
  rewrite (fetch_index_ok index w (r, []) resp d Hg Hs Hd). simpl.
  unfold smart_answer.
  destruct (first_match query (available_urls_of d (text resp)))
    as [target|] eqn:Hfm.
  - apply (select_and_fetch_some index query d target _ w (r, [EvGet index]))
      in Hfm as [Hin ->].
    apply available_urls_same_origin in Hin.
    unfold fetch_target, documentation_from. rewrite Hin. simpl.
    unfold mbind, M_bind, httpx_get, raise_for_status. simpl.
    destruct (http_get w [EvGet index] target) as [[m|m]|resp2];
      [done|done|].
    by destruct (status_error resp2).
  - by rewrite select_and_fetch_none.
Qed.

(** C3.  Whatever the body of the index and whatever the allowed origins
    of the registry.  When the index is fetched, the candidates that the
    discovery tools compute all start with [extract_domain(llms_txt_url)];
    what [list_external_docs] returns is the listing of exactly these
    candidates, and what [query_external_docs_smart] returns is built
    from them alone: the list of candidates, or the document of the
    first candidate that contains the query.  In every case
    [list_external_docs] makes no request but the GET of the index, and
    the only other request of [query_external_docs_smart] is the GET of
    a url that starts with that origin.  The selection re-checks the
    target against the origin whatever list it is given: a target that
    does not start with the origin is answered with the security error
    and no GET, and every GET of the selection is of a url that starts
    with the origin. *)
Theorem discovery_same_origin (index query : string) (w : World)
    (r : Registry) :
  (∀ resp d,
     http_get w [] index = inr resp →
     status_error resp = None →
     extract_domain L index = inr d →
     let urls := available_urls_of d (text resp) in
     (∀ u, u ∈ urls → Py.startswith u d = true)
     ∧ run (list_external_docs L index) w r
       = (inr (listing_text index d urls), r, [EvGet index])
     ∧ run (query_external_docs_smart L index query) w r
       = smart_answer L w r index query urls)
  ∧ (∀ ev, ev ∈ snd (run (list_external_docs L index) w r) →
           ev = EvGet index)
  ∧ (∀ ev, ev ∈ snd (run (query_external_docs_smart L index query) w r) →
           ev = EvGet index
           ∨ ∃ d u, extract_domain L index = inr d
                    ∧ Py.startswith u d = true ∧ ev = EvGet u)
  ∧ (∀ d urls s target,
       first_match query urls = Some target →
       Py.startswith target d = false →
       select_and_fetch L index query d urls w s
       = (inr (security_error target d), s))
  ∧ (∀ d urls s u,
       EvGet u ∈ snd (snd (select_and_fetch L index query d urls w s)) →
       EvGet u ∈ snd s ∨ Py.startswith u d = true).
Proof.
  split; [|split; [|split; [|split]]].
  - intros resp d Hg Hs Hd urls. split; [|split].
    + apply available_urls_same_origin.
    + by rewrite (run_list_external_docs index w r resp d), listing_is_text.
    + by apply run_query_external_docs_smart.
  - apply list_external_docs_events.
  - apply query_external_docs_smart_events.
  - intros d urls s target Hfm Hd.
    apply (select_and_fetch_some index query d target urls w s)
      in Hfm as [_ ->].
    by apply fetch_target_checked.
  - intros d urls s u.
    destruct (select_and_fetch_trace index query d urls w s)
      as [->|(target & _ & _ & Hd & ->)]; [by left|].
    intros [Hin|[= ->]%list_elem_of_singleton]%elem_of_app; [by left|].
    by right.
Qed.
End DiscoveryOrigin.

Lemma discovery_same_origin_witness :
  let index := "https://x.com/llms.txt" in
  let body := "[a](https://x.com/docs/a) https://evil.com/docs/b" in
  let urls := available_urls_of "https://x.com/" body in
  (∀ u, u ∈ urls → Py.startswith u "https://x.com/" = true)
  ∧ run (list_external_docs posix index) (world_serving body) wildcard_registry
    = (inr (listing_text index "https://x.com/" urls), wildcard_registry,
       [EvGet index])
  ∧ run (query_external_docs_smart posix index "/docs/b") (world_serving body)
      wildcard_registry
    = smart_answer posix (world_serving body) wildcard_registry index
        "/docs/b" urls.
Proof.
  apply (proj1 (discovery_same_origin posix "https://x.com/llms.txt" "/docs/b"
                  (world_serving
                     "[a](https://x.com/docs/a) https://evil.com/docs/b")
                  wildcard_registry)
           {| status_error := None;
              text := "[a](https://x.com/docs/a) https://evil.com/docs/b" |}
           "https://x.com/"); reflexivity.
Defined.

(** In that call the query names the foreign url of the body, which is
    no candidate: nothing but the index is fetched. *)
Example query_for_foreign_url :
  run (query_external_docs_smart posix "https://x.com/llms.txt" "/docs/b")
    (world_serving "[a](https://x.com/docs/a) https://evil.com/docs/b")
    wildcard_registry
  = (inr ("No URLs found matching query '/docs/b'. Available URLs:" +:+ nl
          +:+ "https://x.com/docs/a"),
     wildcard_registry, [EvGet "https://x.com/llms.txt"]).
Proof. vm_compute. reflexivity. Qed.

Example candidates_of_index :
  available_urls_of "https://x.com/"
    ("[a](https://x.com/a) https://evil.com/b https://x.com/a")
  = ["https://x.com/a"].
Proof. vm_compute. reflexivity. Qed.

Example selection_rechecks_target :
  select_and_fetch posix "https://x.com/llms.txt" "/b" "https://x.com/"
    ["https://x.com/a"; "https://evil.com/b"] (world_serving "")
    (example_registry, [EvGet "https://x.com/llms.txt"])
  = (inr "Security error: Target URL https://evil.com/b is not from the same domain as llms.txt file https://x.com/",
     (example_registry, [EvGet "https://x.com/llms.txt"])).
Proof. vm_compute. reflexivity. Qed.

Example query_refused_candidate :
  run (query_external_docs_smart posix "https://x.com/llms.txt" "/a")
    (world_checking ("https://x.com/a" +:+ String "001" "b https://x.com/ab"))
    example_registry
  = (inr "Unexpected error: Invalid non-printable ASCII character in URL",
     example_registry, [EvGet "https://x.com/llms.txt"]).
Proof. vm_compute. reflexivity. Qed.

Example query_fetches_first_match :
  run (query_external_docs_smart posix "https://x.com/llms.txt" "/docs/a")
    (world_serving "[a](https://x.com/docs/a) https://evil.com/docs/a")
    wildcard_registry
  = (inr ("Documentation from https://x.com/docs/a:" +:+ nl +:+ nl
          +:+ "[a](https://x.com/docs/a) https://evil.com/docs/a"),
     wildcard_registry,
     [EvGet "https://x.com/llms.txt"; EvGet "https://x.com/docs/a"]).
Proof. vm_compute. reflexivity. Qed.

Example list_external_docs_text :
  fst (fst (run (list_external_docs posix "https://x.com/llms.txt")
              (world_serving "[a](https://x.com/docs/a) https://evil.com/b")
              wildcard_registry))
  = inr ("Available documentation from https://x.com/llms.txt:" +:+ nl
         +:+ "Domain: https://x.com/" +:+ nl
         +:+ "Found 1 documentation URLs:" +:+ nl +:+ nl
         +:+ " 1. docs/a" +:+ nl +:+ "    URL: https://x.com/docs/a" +:+ nl +:+ nl
         +:+ "Use fetch_docs tool with any of the above URLs to get the content.").
Proof. vm_compute. reflexivity. Qed.

(** ** Failures are returned as text, but for two raises of [fetch_docs] *)

Section Failures.
Variable L : Library.

Lemma list_doc_sources_loop_returns (l : list DocSource) (content : string) :
  (∀ e, e ∈ l → is_remote e = true →
        ∃ d, extract_domain L (llms_txt e) = inr d) →
  ∃ s, list_doc_sources_loop L l content = inr s.
Proof.
  revert content. induction l as [|e l IH]; intros content Hl; simpl; [eauto|].
  destruct (_is_http_or_https (llms_txt e)) eqn:He.
  - destruct (Hl e) as [d ->]; [apply list_elem_of_here|done|].
    apply IH. intros e' He'. apply Hl. by apply list_elem_of_further.
  - apply IH. intros e' He'. apply Hl. by apply list_elem_of_further.
Qed.

(** On a remote url, the only exception that escapes [fetch_docs] is the
    [InvalidURL] of httpx: its [except] clause catches the other two. *)
Lemma fetch_docs_remote_throws (url : string) :
  _is_http_or_https url = true →
  throws (λ e, ∃ m, e = InvalidURL m) (fetch_docs L url).
Proof.
  intros Hu. unfold fetch_docs.
  apply throws_bind; [apply throws_get_registry|]. intros r.
  rewrite Hu. simpl. destruct (_ && _); [apply throws_ret|].
  apply throws_try with (Q := λ e, is_http_error e ∨ ∃ m, e = InvalidURL m).
  - apply throws_bind; [apply throws_httpx_get|]. intros resp.
    apply throws_bind; [|intros _; apply throws_ret].
    intros w s e He. left. by eapply throws_raise_for_status.
  - intros [] [He|[m He]]; simpl; try done; try apply throws_ret; eauto.
Qed.



End Failures.


(** The failure of that call is returned as text. *)
Example fetch_docs_not_found_text :
  run (tool posix (FetchDocs "https://example.com/guide")) world_not_found
    example_registry
  = (inr "Encountered an HTTP error: Client error '404 Not Found'",
     example_registry, [EvGet "https://example.com/guide"]).
Proof. vm_compute. reflexivity. Qed.

(** A url of an allowed origin that ends with a line feed: httpx refuses
    it, and [fetch_docs] raises. *)
Example fetch_docs_raises_on_refused_url :
  run (tool posix (FetchDocs ("https://example.com/guide" +:+ nl)))
    (world_checking "# Guide") example_registry
  = (inl (InvalidURL "Invalid non-printable ASCII character in URL"),
     example_registry, []).
Proof. vm_compute. reflexivity. Qed.

(** The other tools answer the same refusal as text. *)
Example discovery_refused_url_text :
  run (tool posix (ListExternalDocs ("https://example.com/llms.txt" +:+ nl)))
    (world_checking "") example_registry
  = (inr "Unexpected error: Invalid non-printable ASCII character in URL",
     example_registry, [])
  ∧ run (tool posix (AddDocSource "X" ("https://example.com/llms.txt" +:+ nl) ""))
      (world_checking "") example_registry
    = (inr "Error adding documentation source: Invalid non-printable ASCII character in URL",
       example_registry, []).
Proof. split; vm_compute; reflexivity. Qed.

Example list_doc_sources_text :
  fst (fst (run (list_doc_sources posix) world_offline example_registry))
  = inr ("Example" +:+ nl +:+ "URL: https://example.com/llms.txt" +:+ nl +:+ nl
         +:+ "/srv/app/docs/llms.txt" +:+ nl
         +:+ "Path: /srv/app/docs/llms.txt" +:+ nl +:+ nl).
Proof. vm_compute. reflexivity. Qed.


Example fetch_errors_as_text :
  fst (fst (run (fetch_docs posix "https://example.com/page") world_not_found
              example_registry))
  = inr "Encountered an HTTP error: Client error '404 Not Found'"
  ∧ fst (fst (run (fetch_docs posix "./docs/llms.txt") world_offline
                example_registry))
    = inr "Error reading local file: [Errno 2] No such file or directory".
Proof. split; vm_compute; reflexivity. Qed.

(** * Further properties *)

(** ** Substrings *)

Lemma startswith_iff (s p : string) :
  Py.startswith s p = true ↔ ∃ t, s = p +:+ t.
Proof.
  split; [apply startswith_inv|]. intros [t ->]. apply startswith_app.
Qed.

Lemma contains_unfold (sub s : string) :
  Py.contains sub s
  = Py.startswith s sub
    || match s with "" => false | String _ s' => Py.contains sub s' end.
Proof. by destruct s. Qed.

(** [sub in s] holds exactly when [sub] occurs in [s]. *)
Lemma contains_spec (sub s : string) :
  Py.contains sub s = true ↔ occurs_in sub s.
Proof.
  induction s as [|c s IH]; rewrite contains_unfold, orb_true_iff, startswith_iff.
  - split.
    + intros [[t Ht]|?]; [|done]. exists "", t. by rewrite app_empty_l.
    + intros (a & b & Hab). left. exists b.
      destruct a as [|x a]; [by rewrite app_empty_l in Hab|done].
  - rewrite IH. split.
    + intros [[t Ht]|(a & b & ->)].
      * exists "", t. by rewrite app_empty_l.
      * by exists (String c a), b.
    + intros (a & b & Hab). destruct a as [|x a].
      * left. exists b. by rewrite app_empty_l in Hab.
      * right. rewrite app_cons in Hab. injection Hab as _ ->. by exists a, b.
Qed.

(** ** Construction *)

Section Construction.
Variable L : Library.

Lemma verify_local_ok (w : World) (l : list DocSource) :
  verify_local L w l = inr tt →
  ∀ e, e ∈ l → path_exists w (_normalize_path L (llms_txt e)) = true.
Proof.
  induction l as [|x l IH]; simpl; [by intros _ e ?%not_elem_of_nil|].
  destruct (path_exists w _) eqn:Hx; [|done].
  intros Hl e [->|He]%elem_of_cons; auto.
Qed.

Lemma verify_local_missing (w : World) (l : list DocSource) (e : DocSource) :
  e ∈ l → path_exists w (_normalize_path L (llms_txt e)) = false →
  ∃ e', e' ∈ l
        ∧ path_exists w (_normalize_path L (llms_txt e')) = false
        ∧ verify_local L w l
          = inl (FileNotFoundError
                   ("Local file not found: "
                    +:+ _normalize_path L (llms_txt e'))).
Proof.
  induction l as [|x l IH]; [by intros ?%not_elem_of_nil|].
  intros Hin He. simpl.
  destruct (path_exists w (_normalize_path L (llms_txt x))) eqn:Hx.
  - apply elem_of_cons in Hin as [->|Hin]; [congruence|].
    destruct (IH Hin He) as (e' & He' & Hmiss & Hv).
    exists e'. split; [by apply list_elem_of_further|done].
  - exists x. split; [apply list_elem_of_here|done].
Qed.

Lemma extract_domains_spec (l : list DocSource) (ds : list string) :
  extract_domains L l = inr ds →
  ∀ d, d ∈ ds ↔ ∃ e, e ∈ l ∧ extract_domain L (llms_txt e) = inr d.
Proof.
  revert ds. induction l as [|x l IH]; intros ds; simpl.
  - intros [= <-] d. split; [by intros ?%not_elem_of_nil|].
    by intros (e & ?%not_elem_of_nil & _).
  - destruct (extract_domain L (llms_txt x)) as [|dx] eqn:Hx; [done|].
    destruct (extract_domains L l) as [|ds']; [done|].
    intros [= <-] d. rewrite elem_of_cons, (IH ds' eq_refl). split.
    + intros [->|(e & He & Hd)].
      * exists x. split; [apply list_elem_of_here|done].
      * exists e. split; [by apply list_elem_of_further|done].
    + intros (e & [->|He]%elem_of_cons & Hd).
      * left. congruence.
      * right. by exists e.
Qed.

Lemma extract_domains_fails (l : list DocSource) (e : DocSource) (x : exn) :
  e ∈ l → extract_domain L (llms_txt e) = inl x →
  ∃ x', extract_domains L l = inl x'.
Proof.
  induction l as [|y l IH]; [by intros ?%not_elem_of_nil|].
  intros Hin He. simpl.
  destruct (extract_domain L (llms_txt y)) as [|dy] eqn:Hy; [eauto|].
  apply elem_of_cons in Hin as [->|Hin]; [congruence|].
  destruct (IH Hin He) as [x' ->]. eauto.
Qed.

(** X1.  [create_server] fails fast on a missing local file: if the
    normalized path of some local source does not exist, it raises
    [FileNotFoundError] naming a missing local source and builds no
    registry; and whenever it does build a registry, the path of every
    local source exists. *)
Theorem create_server_fail_fast (w : World) (sources : list DocSource)
    (allowed_domains : option (list string)) :
  (∀ r0, create_server L w sources allowed_domains = inr r0 →
         ∀ e, e ∈ sources → is_remote e = false →
              path_exists w (_normalize_path L (llms_txt e)) = true)
  ∧ (∀ e, e ∈ sources → is_remote e = false →
          path_exists w (_normalize_path L (llms_txt e)) = false →
          ∃ e', e' ∈ sources ∧ is_remote e' = false
                ∧ path_exists w (_normalize_path L (llms_txt e')) = false
                ∧ create_server L w sources allowed_domains
                  = inl (FileNotFoundError
                           ("Local file not found: "
                            +:+ _normalize_path L (llms_txt e')))).
Proof.
  split.
  - intros r0. unfold create_server.
    destruct (verify_local L w _) as [|[]] eqn:Hv; [done|].
    intros _ e He Hl. apply (verify_local_ok _ _ Hv).
    by apply list_elem_of_filter.
  - intros e He Hl Hmiss.
    destruct (verify_local_missing w
                (filter (λ e, is_remote e = false) sources) e)
      as (e' & [Hl' He']%list_elem_of_filter & Hmiss' & Hv);
      [by apply list_elem_of_filter|done|].
    exists e'. unfold create_server. by rewrite Hv.
Qed.

(** X2.  A registry that [create_server] builds holds the sources as
    given, and [extract_domain] is defined on every remote one: a remote
    source whose url [urlparse] rejects makes the construction raise. *)
Theorem create_server_sources_parse (w : World) (sources : list DocSource)
    (allowed_domains : option (list string)) (r0 : Registry) :
  create_server L w sources allowed_domains = inr r0 →
  doc_sources r0 = sources ∧ sources_parse L r0.
Proof.
  unfold create_server.
  destruct (verify_local L w _); [done|].
  destruct (extract_domains L _) as [|ds] eqn:Hds; [done|].
  intros [= <-]. split; [done|]. intros e He Hr. cbn [doc_sources] in He.
  destruct (extract_domain L (llms_txt e)) as [x|d] eqn:Hd; [|by exists d].
  destruct (extract_domains_fails
              (filter (λ e, is_remote e = true) sources) e x) as [x' Hx'];
    [by apply list_elem_of_filter|done|congruence].
Qed.

(** X3.  What [create_server] allows, when the extra origins do not
    contain the wildcard token: the allowed origins are exactly the
    origins of the remote sources and the extra origins, and the allowed
    local paths are exactly the normalized paths of the local sources. *)
Theorem create_server_allow_sets (w : World) (sources : list DocSource)
    (allowed_domains : option (list string)) (r0 : Registry) :
  without_wildcard allowed_domains →
  create_server L w sources allowed_domains = inr r0 →
  (∀ d, d ∈ domains r0 ↔
        (∃ e, e ∈ sources ∧ is_remote e = true
              ∧ extract_domain L (llms_txt e) = inr d)
        ∨ (∃ ads, allowed_domains = Some ads ∧ d ∈ ads))
  ∧ (∀ p, p ∈ allowed_local_files r0 ↔
          ∃ e, e ∈ sources ∧ is_remote e = false
               ∧ p = _normalize_path L (llms_txt e)).
Proof.
  intros Hw. unfold create_server.
  destruct (verify_local L w _); [done|].
  destruct (extract_domains L _) as [|ds] eqn:Hds; [done|].
  pose proof (extract_domains_spec _ _ Hds) as Hspec.
  intros [= <-]. cbn [domains allowed_local_files]. split.
  - intros d.
    assert (Hsrc : d ∈ (list_to_set ds : gset string) ↔
                   ∃ e, e ∈ sources ∧ is_remote e = true
                        ∧ extract_domain L (llms_txt e) = inr d).
    { rewrite elem_of_list_to_set, Hspec. split.
      - intros (e & [Hr He]%list_elem_of_filter & Hd). by exists e.
      - intros (e & He & Hr & Hd). exists e.
        split; [by apply list_elem_of_filter|done]. }
    destruct allowed_domains as [[|a ads]|].
    + rewrite Hsrc. split; [by left|]. intros [H|(ads & [= <-] & H)]; [done|].
      by apply not_elem_of_nil in H.
    + rewrite bool_decide_eq_false_2 by (by apply Hw).
      rewrite elem_of_union, Hsrc.
      pose proof (elem_of_list_to_set (C:=gset string) d (a :: ads)) as Hads.
      split.
      * intros [H|H]; [by left|]. right. exists (a :: ads).
        split; [done|by apply Hads].
      * intros [H|(ads' & [= <-] & H)]; [by left|]. right. by apply Hads.
    + rewrite Hsrc. split; [by left|]. by intros [H|(ads & [=] & _)].
  - intros p. rewrite elem_of_list_to_set, list_elem_of_fmap. split.
    + intros (e & -> & [Hl He]%list_elem_of_filter). by exists e.
    + intros (e & He & Hl & ->). exists e.
      split; [done|by apply list_elem_of_filter].
Qed.
End Construction.

Lemma create_server_sources_parse_witness :
  doc_sources example_registry = [example_source; local_source]
  ∧ sources_parse posix example_registry.
Proof.
  apply (create_server_sources_parse posix (world_serving "")
           [example_source; local_source] None).
  vm_compute. reflexivity.
Defined.

Lemma create_server_allow_sets_witness :
  (∀ d, d ∈ domains example_registry ↔
        (∃ e, e ∈ [example_source; local_source] ∧ is_remote e = true
              ∧ extract_domain posix (llms_txt e) = inr d)
        ∨ (∃ ads, (None : option (list string)) = Some ads ∧ d ∈ ads))
  ∧ (∀ p, p ∈ allowed_local_files example_registry ↔
          ∃ e, e ∈ [example_source; local_source] ∧ is_remote e = false
               ∧ p = _normalize_path posix (llms_txt e)).
Proof.
  apply (create_server_allow_sets posix (world_serving "")
           [example_source; local_source] None example_registry).
  - intros ads. discriminate.
  - vm_compute. reflexivity.
Defined.

Example create_server_rejects_bad_url :
  create_server posix (world_serving "")
    [example_source;
     {| name := None; llms_txt := bad_bracket_url; description := None |}]
    None
  = inl (ValueError "Invalid IPv6 URL").
Proof. vm_compute. reflexivity. Qed.

(** ** The registry over the calls *)

Section RegistryInvariants.
Variable L : Library.

Lemma create_server_local_files (w : World) (sources : list DocSource)
    (allowed_domains : option (list string)) (r0 : Registry) (p : string) :
  create_server L w sources allowed_domains = inr r0 →
  p ∈ allowed_local_files r0 →
  ∃ e, e ∈ sources ∧ is_remote e = false ∧ p = _normalize_path L (llms_txt e).
Proof.
  unfold create_server.
  destruct (verify_local L w _); [done|].
  destruct (extract_domains L _); [done|].
  intros [= <-]. cbn [allowed_local_files].
  rewrite elem_of_list_to_set, list_elem_of_fmap.
  intros (e & -> & [Hl He]%list_elem_of_filter). by exists e.
Qed.

Lemma reachable_local_files (r0 r : Registry) :
  reachable L r0 r → allowed_local_files r = allowed_local_files r0.
Proof.
  intros Hreach. induction Hreach as [|r c w Hr IH Hok]; [done|].
  by rewrite (proj2 (after_allow_sets L c w r)).
Qed.

Lemma create_server_origins (w : World) (sources : list DocSource)
    (allowed_domains : option (list string)) (r0 : Registry) :
  create_server L w sources allowed_domains = inr r0 →
  origins_allowed L r0.
Proof.
  unfold create_server.
  destruct (verify_local L w _); [done|].
  destruct (extract_domains L _) as [|ds] eqn:Hds; [done|].
  intros [= <-] e d He Hr Hd. cbn [doc_sources domains] in *.
  assert (Hin : d ∈ (list_to_set ds : gset string)).
  { apply elem_of_list_to_set, (extract_domains_spec L _ _ Hds).
    exists e. split; [by apply list_elem_of_filter|done]. }
  destruct allowed_domains as [[|a ads]|]; [by left| |by left].
  case_bool_decide.
  - right. by apply elem_of_singleton.
  - left. apply elem_of_union. by left.
Qed.

Lemma after_origins (c : call) (w : World) (r : Registry) :
  origins_allowed L r → origins_allowed L (after L c w r).
Proof.
  intros Hr. destruct c as [|url|u q|u|n u desc|n];
    try (unfold after; simpl tool; rewrite run_registry;
         [done|solve [auto using keeps_list_doc_sources, keeps_fetch_docs,
                 keeps_query_external_docs_smart, keeps_list_external_docs]]).
  - unfold after. simpl tool. rewrite run_add_doc_source.
    destruct (refused w u); [done|].
    destruct (validating_error w u); [done|]. cbn zeta.
    assert (Hold : ∀ r', doc_sources r' = doc_sources r ++ [new_source n u desc] →
                         domains r ⊆ domains r' →
                         (_is_http_or_https u = true →
                          ∀ d, extract_domain L u = inr d →
                               d ∈ domains r' ∨ "*" ∈ domains r') →
                         origins_allowed L r').
    { intros r' Hs Hd Hnew e d He Hrem Hdom. rewrite Hs in He.
      apply elem_of_app in He as [He| ->%list_elem_of_singleton].
      - destruct (Hr e d He Hrem Hdom) as [H|H]; [left|right]; by apply Hd.
      - by apply Hnew. }
    destruct (_is_http_or_https u) eqn:Hu.
    + destruct (extract_domain L u) as [x|nd] eqn:Hnd; simpl.
      * by apply Hold.
      * case_bool_decide as Hw; apply Hold; simpl; try done.
        -- apply union_subseteq_l.
        -- intros _ d [= <-]. left. apply elem_of_union. right.
           by apply elem_of_singleton.
        -- intros _ d _. by right.
    + by apply Hold.
  - unfold after. simpl tool. rewrite run_remove_doc_source.
    destruct (find_source n 0 (doc_sources r)) as [[i e]|]; [|done]. simpl.
    intros e' d He'. cbn [doc_sources domains] in *.
    apply Hr. by eapply list_elem_of_delete_inv.
Qed.

(** X4.  In every registry reached from a construction by calls of the
    tools, the origin of each remote source on which [extract_domain] is
    defined is an allowed origin, or every origin is allowed. *)
Theorem remote_origins_allowed (w0 : World) (sources : list DocSource)
    (allowed_domains : option (list string)) (r0 r : Registry) :
  create_server L w0 sources allowed_domains = inr r0 →
  reachable L r0 r →
  origins_allowed L r.
Proof.
  intros Hc Hreach. induction Hreach as [|r c w Hr IH Hok].
  - by eapply create_server_origins.
  - by apply after_origins.
Qed.

(** X5.  The only files that the tools open are configured ones: in every
    registry reached from a construction, a file opened by a call of a
    tool is opened by [fetch_docs], is the normalized reference given,
    and is the normalized path of a local source that was given to
    [create_server]. *)
Theorem opened_files_are_configured (w0 w : World) (sources : list DocSource)
    (allowed_domains : option (list string)) (r0 r : Registry) (c : call)
    (p : string) :
  create_server L w0 sources allowed_domains = inr r0 →
  reachable L r0 r →
  EvOpen p ∈ snd (run (tool L c) w r) →
  (∃ ref, c = FetchDocs ref ∧ p = _normalize_path L ref)
  ∧ ∃ e, e ∈ sources ∧ is_remote e = false
         ∧ p = _normalize_path L (llms_txt e).
Proof.
  intros Hc Hreach. destruct c as [|ref|u q|u|n u desc|n]; simpl tool.
  - unfold run, list_doc_sources, mbind, M_bind, lift. simpl.
    by intros ?%not_elem_of_nil.
  - intros [-> Hin]%fetch_docs_open_allowed. split; [by exists ref|].
    rewrite (reachable_local_files _ _ Hreach) in Hin.
    by eapply create_server_local_files.
  - by intros [[=]|(d & t & _ & _ & [=])]%query_external_docs_smart_events.
  - by intros [=]%list_external_docs_events.
  - rewrite run_add_doc_source.
    destruct (refused w u); simpl; [by intros ?%not_elem_of_nil|].
    destruct (validating_error w u); simpl;
      [by intros [=]%list_elem_of_singleton|].
    destruct (_is_http_or_https u); simpl;
      [|by intros [=]%list_elem_of_singleton].
    destruct (extract_domain L u); simpl; by intros [=]%list_elem_of_singleton.
  - rewrite run_remove_doc_source.
    destruct (find_source n 0 (doc_sources r)) as [[i e]|]; simpl;
      by intros ?%not_elem_of_nil.
Qed.

(** X6.  The four tools that read leave the registry as it is, whatever
    the world answers: [list_doc_sources], [fetch_docs],
    [query_external_docs_smart] and [list_external_docs]. *)
Theorem reading_tools_keep_registry (w : World) (r : Registry)
    (url query : string) :
  after L ListDocSources w r = r
  ∧ after L (FetchDocs url) w r = r
  ∧ after L (QueryExternalDocsSmart url query) w r = r
  ∧ after L (ListExternalDocs url) w r = r.
Proof.
  unfold after. simpl tool.
  rewrite !run_registry;
    auto using keeps_list_doc_sources, keeps_fetch_docs,
      keeps_query_external_docs_smart, keeps_list_external_docs.
Qed.
End RegistryInvariants.

Lemma remote_origins_allowed_witness :
  origins_allowed posix
    (after posix (AddDocSource "Other" "https://other.org/llms.txt" "")
       (world_serving "") example_registry).
Proof.
  apply (remote_origins_allowed posix (world_serving "")
           [example_source; local_source] None example_registry).
  - vm_compute. reflexivity.
  - apply reachable_call; [apply reachable_init|exact I].
Defined.

Lemma opened_files_are_configured_witness :
  (∃ ref, FetchDocs "file:///srv/app/docs/llms.txt" = FetchDocs ref
          ∧ "/srv/app/docs/llms.txt" = _normalize_path posix ref)
  ∧ ∃ e, e ∈ [example_source; local_source] ∧ is_remote e = false
         ∧ "/srv/app/docs/llms.txt" = _normalize_path posix (llms_txt e).
Proof.
  apply (opened_files_are_configured posix (world_serving "")
           (world_serving "# Docs") [example_source; local_source] None
           example_registry example_registry
           (FetchDocs "file:///srv/app/docs/llms.txt")).
  - vm_compute. reflexivity.
  - apply reachable_init.
  - vm_compute. apply list_elem_of_here.
Defined.

(** ** Adding and removing sources *)

Section AddRemove.
Variable L : Library.

(** X7.  After an [add_doc_source] of a remote url that httpx accepts,
    whose validating GET succeeds and whose origin is [d], the source is
    the last of the list and every remote url that starts with [d]
    passes the origin check of [fetch_docs], in every world: the url is
    handed to httpx, and the call ends as [fetched] says, with the
    outcome of the GET or, for a url that httpx refuses, with its
    [InvalidURL]. *)
Theorem add_doc_source_then_fetch (name0 url description0 d : string)
    (w : World) (r : Registry) :
  refused w url = None →
  validating_error w url = None →
  _is_http_or_https url = true →
  extract_domain L url = inr d →
  run (add_doc_source L name0 url description0) w r
  = (inr ("Successfully added documentation source '" +:+ name0
          +:+ "' with URL: " +:+ url),
     after L (AddDocSource name0 url description0) w r, [EvGet url])
  ∧ doc_sources (after L (AddDocSource name0 url description0) w r)
    = doc_sources r ++ [new_source name0 url description0]
  ∧ ∀ w' url', _is_http_or_https url' = true →
               Py.startswith url' d = true →
               run (fetch_docs L url') w'
                 (after L (AddDocSource name0 url description0) w r)
               = fetched L w'
                   (after L (AddDocSource name0 url description0) w r) url'.
Proof.
  intros Hr Hv Hu Hd. unfold after. simpl tool.
  rewrite run_add_doc_source, Hr, Hv, Hu, Hd. cbn zeta. simpl.
  split; [done|]. split; [by case_bool_decide|].
  intros w' url' Hu' Hp. apply fetch_docs_remote_allowed; [done|].
  case_bool_decide as Hw.
  - right. exists d. split; [|done]. simpl.
    apply elem_of_union. right. by apply elem_of_singleton.
  - by left.
Qed.

Lemma find_source_app (name0 : string) (i0 : nat) (l1 l2 : list DocSource) :
  (∀ e, e ∈ l1 → name e ≠ Some name0) →
  find_source name0 i0 (l1 ++ l2) = find_source name0 (i0 + length l1) l2.
Proof.
  revert i0. induction l1 as [|x l1 IH]; intros i0 Hl1; simpl.
  - by rewrite Nat.add_0_r.
  - rewrite bool_decide_eq_false_2 by (apply Hl1, list_elem_of_here).
    rewrite IH by (intros e He; by apply Hl1, list_elem_of_further).
    f_equal. lia.
Qed.

(** [remove_doc_source] when the first source with the name is known. *)
Lemma run_remove_first (name0 : string) (w : World)
    (r : Registry) (l1 l2 : list DocSource) (e : DocSource) :
  doc_sources r = l1 ++ e :: l2 →
  (∀ x, x ∈ l1 → name x ≠ Some name0) →
  name e = Some name0 →
  run (remove_doc_source name0) w r
  = (inr ("Successfully removed documentation source '" +:+ name0
          +:+ "' (URL: " +:+ llms_txt e +:+ ")"),
     {| doc_sources := l1 ++ l2;
        domains := domains r;
        allowed_local_files := allowed_local_files r |},
     []).
Proof.
  intros Hs Hl1 He. rewrite run_remove_doc_source, Hs.
  rewrite find_source_app by done. simpl.
  rewrite bool_decide_eq_true_2 by done.
  by rewrite delete_middle.
Qed.

(** X8.  [remove_doc_source] removes the first source with the name
    given and no other: if the sources are [l1 ++ e :: l2], no source of
    [l1] has the name and [e] has it, then the sources become
    [l1 ++ l2], both allow-sets stay, and the text names the reference
    of [e]. *)
Theorem remove_doc_source_first_match (name0 : string) (w : World)
    (r : Registry) (l1 l2 : list DocSource) (e : DocSource) :
  doc_sources r = l1 ++ e :: l2 →
  (∀ x, x ∈ l1 → name x ≠ Some name0) →
  name e = Some name0 →
  run (remove_doc_source name0) w r
  = (inr ("Successfully removed documentation source '" +:+ name0
          +:+ "' (URL: " +:+ llms_txt e +:+ ")"),
     {| doc_sources := l1 ++ l2;
        domains := domains r;
        allowed_local_files := allowed_local_files r |},
     []).
Proof. apply run_remove_first. Qed.

(** X9.  Adding a source under a name that no source has, and then
    removing that name, gives back the list of sources; the origin that
    the addition allowed stays allowed. *)
Theorem add_then_remove (name0 url description0 : string) (w w' : World)
    (r : Registry) :
  (∀ e, e ∈ doc_sources r → name e ≠ Some name0) →
  validating_error w url = None →
  let r1 := after L (AddDocSource name0 url description0) w r in
  doc_sources (after L (RemoveDocSource name0) w' r1) = doc_sources r
  ∧ domains (after L (RemoveDocSource name0) w' r1) = domains r1
  ∧ domains r ⊆ domains r1.
Proof.
  intros Hfresh Hv r1.
  destruct (refused w url) as [m|] eqn:Hr.
  { assert (Hr1 : after L (AddDocSource name0 url description0) w r = r).
    { unfold after. simpl tool. by rewrite run_add_doc_source, Hr. }
    assert (Hnone : find_source name0 0 (doc_sources r) = None).
    { pose proof (find_source_spec name0 0 (doc_sources r)) as Hf.
      destruct (find_source name0 0 (doc_sources r)) as [[i e]|]; [|done].
      destruct Hf as (k & _ & Hk & He & _).
      destruct (Hfresh e); [by eapply list_elem_of_lookup_2|done]. }
    subst r1. rewrite Hr1. unfold after. simpl tool.
    by rewrite run_remove_doc_source, Hnone. }
  assert (Hs : doc_sources r1 = doc_sources r ++ new_source name0 url description0 :: []).
  { subst r1. unfold after. simpl tool. rewrite run_add_doc_source, Hr, Hv.
    cbn zeta. destruct (_is_http_or_https url); [|done].
    destruct (extract_domain L url); [done|]. by case_bool_decide. }
  split; [|split].
  - unfold after at 1. simpl tool.
    by rewrite (run_remove_first name0 w' r1 _ [] _ Hs Hfresh eq_refl),
      app_nil_r.
  - unfold after at 1. simpl tool.
    by rewrite (run_remove_first name0 w' r1 _ [] _ Hs Hfresh eq_refl).
  - apply after_allow_sets.
Qed.

Lemma list_doc_sources_loop_app (l1 l2 : list DocSource) (content : string) :
  list_doc_sources_loop L (l1 ++ l2) content
  = match list_doc_sources_loop L l1 content with
    | inl x => inl x
    | inr content' => list_doc_sources_loop L l2 content'
    end.
Proof.
  revert content. induction l1 as [|e l1 IH]; intros content; simpl; [done|].
  destruct (_is_http_or_https (llms_txt e)); [|apply IH].
  destruct (extract_domain L (llms_txt e)); [done|apply IH].
Qed.

(** X10.  [add_doc_source] appends the source before it extracts the
    origin: when httpx accepts a remote url, its validating GET succeeds
    and [extract_domain] raises on the url, the tool returns an error text
    and yet the source is in the list, with both allow-sets as before;
    on that registry [list_doc_sources] raises. *)
Theorem add_doc_source_unparsable (name0 url description0 : string) (x : exn)
    (w : World) (r : Registry) :
  refused w url = None →
  validating_error w url = None →
  _is_http_or_https url = true →
  extract_domain L url = inl x →
  run (add_doc_source L name0 url description0) w r
  = (inr ("Error adding documentation source: " +:+ exn_str x),
     with_source r (new_source name0 url description0), [EvGet url])
  ∧ ∀ w', ∃ x',
      run (list_doc_sources L) w'
        (with_source r (new_source name0 url description0))
      = (inl x', with_source r (new_source name0 url description0), []).
Proof.
  intros Hr Hv Hu Hx.
  split; [by rewrite run_add_doc_source, Hr, Hv, Hu, Hx|].
  intros w'. unfold run, list_doc_sources, mbind, M_bind, lift. simpl.
  rewrite list_doc_sources_loop_app.
  destruct (list_doc_sources_loop L (doc_sources r) "") as [x1|c]; [by exists x1|].
  simpl. rewrite Hu, Hx. by exists x.
Qed.

Lemma list_doc_sources_loop_grows (l : list DocSource) (content s : string) :
  list_doc_sources_loop L l content = inr s → ∃ t, s = content +:+ t.
Proof.
  revert content. induction l as [|e l IH]; intros content; simpl.
  - intros [= <-]. exists "". by rewrite app_empty_r.
  - destruct (_is_http_or_https (llms_txt e)).
    + destruct (extract_domain L (llms_txt e)) as [|d]; [done|].
      intros [t ->]%IH. eexists. by rewrite app_assoc_s.
    + intros [t ->]%IH. eexists. by rewrite app_assoc_s.
Qed.

Lemma list_doc_sources_loop_lines (l : list DocSource) (content s : string) :
  list_doc_sources_loop L l content = inr s →
  ∀ e, e ∈ l →
    ∃ shown,
      occurs_in (source_lines L e shown) s
      ∧ match name e with
        | Some n => shown = n
        | None =>
            if is_remote e then extract_domain L (llms_txt e) = inr shown
            else shown = _normalize_path L (llms_txt e)
        end.
Proof.
  revert content. induction l as [|x l IH]; intros content Hs e He;
    [by apply not_elem_of_nil in He|].
  apply elem_of_cons in He as [->|He].
  - simpl in Hs. unfold source_lines, is_remote.
    destruct (_is_http_or_https (llms_txt x)).
    + destruct (extract_domain L (llms_txt x)) as [|d]; [done|].
      apply list_doc_sources_loop_grows in Hs as [t ->].
      exists (default d (name x)).
      split; [exists content, t; by rewrite app_assoc_s|].
      by destruct (name x).
    + apply list_doc_sources_loop_grows in Hs as [t ->].
      exists (default (_normalize_path L (llms_txt x)) (name x)).
      split; [exists content, t; by rewrite app_assoc_s|].
      by destruct (name x).
  - simpl in Hs. destruct (_is_http_or_https (llms_txt x)).
    + destruct (extract_domain L (llms_txt x)) as [|d]; [done|]. by eapply IH.
    + by eapply IH.
Qed.

(** X11.  When [extract_domain] is defined on every remote source,
    [list_doc_sources] returns a text, changes nothing and does no I/O,
    and the text has the lines of every source: the name (or, without a
    name, the origin of a remote source and the normalized path of a
    local one), then the url or the normalized path. *)
Theorem list_doc_sources_lists_all (w : World) (r : Registry) :
  sources_parse L r →
  ∃ s, run (list_doc_sources L) w r = (inr s, r, [])
       ∧ ∀ e, e ∈ doc_sources r →
           ∃ shown,
             occurs_in (source_lines L e shown) s
             ∧ match name e with
               | Some n => shown = n
               | None =>
                   if is_remote e
                   then extract_domain L (llms_txt e) = inr shown
                   else shown = _normalize_path L (llms_txt e)
               end.
Proof.
  intros Hp.
  destruct (list_doc_sources_loop_returns L (doc_sources r) "" Hp) as [s Hs].
  exists s. split.
  - unfold run, list_doc_sources, mbind, M_bind, lift. simpl. by rewrite Hs.
  - by apply (list_doc_sources_loop_lines _ "").
Qed.
End AddRemove.

Lemma add_doc_source_then_fetch_witness :
  let r := after posix (AddDocSource "Other" "https://other.org/llms.txt" "")
             (world_serving "") example_registry in
  run (add_doc_source posix "Other" "https://other.org/llms.txt" "")
    (world_serving "") example_registry
  = (inr "Successfully added documentation source 'Other' with URL: https://other.org/llms.txt",
     r, [EvGet "https://other.org/llms.txt"])
  ∧ doc_sources r
    = doc_sources example_registry
      ++ [new_source "Other" "https://other.org/llms.txt" ""]
  ∧ ∀ w' url', _is_http_or_https url' = true →
               Py.startswith url' "https://other.org/" = true →
               run (fetch_docs posix url') w' r = fetched posix w' r url'.
Proof.
  apply (add_doc_source_then_fetch posix "Other" "https://other.org/llms.txt"
           "" "https://other.org/" (world_serving "") example_registry);
    reflexivity.
Defined.

Lemma remove_doc_source_first_match_witness :
  run (remove_doc_source "Example") world_offline
    {| doc_sources := [local_source; example_source; example_source];
       domains := ∅; allowed_local_files := ∅ |}
  = (inr "Successfully removed documentation source 'Example' (URL: https://example.com/llms.txt)",
     {| doc_sources := [local_source] ++ [example_source];
        domains := ∅; allowed_local_files := ∅ |},
     []).
Proof.
  apply (remove_doc_source_first_match "Example" world_offline
           {| doc_sources := [local_source; example_source; example_source];
              domains := ∅; allowed_local_files := ∅ |}
           [local_source] [example_source] example_source).
  - reflexivity.
  - intros x ->%list_elem_of_singleton. discriminate.
  - reflexivity.
Defined.

Lemma add_then_remove_witness :
  let r1 := after posix (AddDocSource "Other" "https://other.org/llms.txt" "")
              (world_serving "") example_registry in
  doc_sources (after posix (RemoveDocSource "Other") world_offline r1)
  = doc_sources example_registry
  ∧ domains (after posix (RemoveDocSource "Other") world_offline r1)
    = domains r1
  ∧ domains example_registry ⊆ domains r1.
Proof.
  apply (add_then_remove posix "Other" "https://other.org/llms.txt" ""
           (world_serving "") world_offline example_registry).
  - intros e He.
    apply elem_of_cons in He as [->|He]; [discriminate|].
    apply list_elem_of_singleton in He as ->. discriminate.
  - reflexivity.
Defined.

Lemma add_doc_source_unparsable_witness :
  run (add_doc_source posix "Bad" bad_bracket_url "") (world_serving "")
    example_registry
  = (inr "Error adding documentation source: Invalid IPv6 URL",
     with_source example_registry (new_source "Bad" bad_bracket_url ""),
     [EvGet bad_bracket_url])
  ∧ ∀ w', ∃ x',
      run (list_doc_sources posix) w'
        (with_source example_registry (new_source "Bad" bad_bracket_url ""))
      = (inl x',
         with_source example_registry (new_source "Bad" bad_bracket_url ""),
         []).
Proof.
  apply (add_doc_source_unparsable posix "Bad" bad_bracket_url ""
           (ValueError "Invalid IPv6 URL") (world_serving "") example_registry);
    reflexivity.
Defined.

Lemma list_doc_sources_lists_all_witness :
  ∃ s, run (list_doc_sources posix) world_offline example_registry
       = (inr s, example_registry, [])
       ∧ ∀ e, e ∈ doc_sources example_registry →
           ∃ shown,
             occurs_in (source_lines posix e shown) s
             ∧ match name e with
               | Some n => shown = n
               | None =>
                   if is_remote e
                   then extract_domain posix (llms_txt e) = inr shown
                   else shown = _normalize_path posix (llms_txt e)
               end.
Proof.
  apply (list_doc_sources_lists_all posix world_offline example_registry).
  intros e He Hr.
  apply elem_of_cons in He as [->|He]; [by eexists|].
  apply list_elem_of_singleton in He as ->. discriminate.
Defined.

(** ** [fetch_docs] *)

Section Fetch.
Variable L : Library.

Lemma file_url_is_local (path : string) :
  _is_http_or_https ("file://" +:+ path) = false.
Proof. by rewrite !app_cons. Qed.

Lemma file_url_normalized (path : string) :
  Py.startswith path "file://" = false →
  _normalize_path L ("file://" +:+ path) = _normalize_path L path.
Proof.
  intros Hp. unfold _normalize_path. by rewrite startswith_app, Hp.
Qed.

(** X12.  A local path and its [file://] url are the same reference to
    [fetch_docs]: for a path that is neither remote nor itself a
    [file://] url, the two calls have the same outcome, the same
    registry and the same events. *)
Theorem fetch_docs_file_url (w : World) (r : Registry) (path : string) :
  _is_http_or_https path = false →
  Py.startswith path "file://" = false →
  run (fetch_docs L ("file://" +:+ path)) w r = run (fetch_docs L path) w r.
Proof.
  intros Hu Hp. unfold run, fetch_docs, mbind, M_bind, get_registry.
  cbv beta iota.
  by rewrite file_url_is_local, Hu, file_url_normalized.
Qed.

(** X13.  [fetch_docs] on a remote url decides by the allowed origins
    alone: if the wildcard is allowed or some allowed origin is a prefix
    of the url, the url passes the check and is handed to httpx, and the
    call ends as [fetched] says (one GET and the converted body or the
    text of the HTTP failure, or the [InvalidURL] of a url that httpx
    refuses, without a GET); otherwise it makes no GET and returns the
    text that lists the allowed origins.  The registry stays. *)
Theorem fetch_docs_remote_decision (w : World) (r : Registry) (url : string) :
  _is_http_or_https url = true →
  (("*" ∈ domains r ∨ ∃ d, d ∈ domains r ∧ Py.startswith url d = true)
   ∧ run (fetch_docs L url) w r = fetched L w r url)
  ∨ (("*" ∉ domains r) ∧ (∀ d, d ∈ domains r → Py.startswith url d = false)
     ∧ run (fetch_docs L url) w r = (inr (origin_not_allowed r), r, [])).
Proof.
  intros Hu.
  destruct (decide ("*" ∈ domains r)) as [Hw|Hw].
  { left. split; [by left|]. apply fetch_docs_remote_allowed; auto. }
  destruct (existsb (λ d, Py.startswith url d) (elements (domains r))) eqn:Hex.
  - apply existsb_exists in Hex as (d & Hd%list_elem_of_In%elem_of_elements & Hp).
    left. split; [right; by exists d|].
    apply fetch_docs_remote_allowed; [done|]. right. by exists d.
  - assert (Hno : ∀ d, d ∈ domains r → Py.startswith url d = false).
    { intros d Hd. apply not_true_is_false. intros Hp.
      apply not_true_iff_false in Hex. apply Hex, existsb_exists.
      exists d. split; [|done]. by apply list_elem_of_In, elem_of_elements. }
    right. split; [done|]. split; [done|].
    by apply fetch_docs_remote_rejected.
Qed.
End Fetch.

Lemma fetch_docs_file_url_witness :
  run (fetch_docs posix ("file://" +:+ "/srv/app/docs/llms.txt"))
    (world_serving "# Docs") example_registry
  = run (fetch_docs posix "/srv/app/docs/llms.txt")
      (world_serving "# Docs") example_registry.
Proof.
  apply (fetch_docs_file_url posix (world_serving "# Docs") example_registry
           "/srv/app/docs/llms.txt"); reflexivity.
Defined.

Lemma fetch_docs_remote_decision_witness :
  (("*" ∈ domains example_registry
    ∨ ∃ d, d ∈ domains example_registry
           ∧ Py.startswith "https://example.com/guide" d = true)
   ∧ run (fetch_docs posix "https://example.com/guide") world_not_found
       example_registry
     = fetched posix world_not_found example_registry
         "https://example.com/guide")
  ∨ (("*" ∉ domains example_registry)
     ∧ (∀ d, d ∈ domains example_registry →
             Py.startswith "https://example.com/guide" d = false)
     ∧ run (fetch_docs posix "https://example.com/guide") world_not_found
         example_registry
       = (inr (origin_not_allowed example_registry), example_registry, [])).
Proof.
  apply (fetch_docs_remote_decision posix world_not_found example_registry
           "https://example.com/guide").
  reflexivity.
Defined.

(** ** Index discovery *)

Lemma collect_urls_spec (d : string) (found available : list string) (u : string) :
  u ∈ collect_urls d found available ↔
  u ∈ available
  ∨ ∃ x, x ∈ found ∧ u = cleaned x ∧ Py.startswith u "http" = true
         ∧ Py.startswith u d = true.
Proof.
  revert available. induction found as [|x found IH]; intros available.
  - simpl. split; [by left|]. intros [?|(x & ?%not_elem_of_nil & _)]; done.
  - simpl. fold (cleaned x).
    destruct (Py.startswith (cleaned x) "http") eqn:Hh; simpl.
    + case_bool_decide as Hx; simpl.
      * destruct (Py.startswith (cleaned x) d) eqn:Hd; rewrite IH.
        -- rewrite elem_of_app, list_elem_of_singleton. split.
           ++ intros [[?| ->]|(y & Hy & ?)]; [by left| |].
              ** right. exists x. split; [apply list_elem_of_here|done].
              ** right. exists y. split; [by apply list_elem_of_further|done].
           ++ intros [?|(y & [->|Hy]%elem_of_cons & -> & ?)];
                [by left; left|by left; right|].
              right. by exists y.
        -- split.
           ++ intros [?|(y & Hy & ?)]; [by left|].
              right. exists y. split; [by apply list_elem_of_further|done].
           ++ intros [?|(y & [->|Hy]%elem_of_cons & -> & ? & ?)];
                [by left|congruence|].
              right. by exists y.
      * rewrite IH. split.
        -- intros [?|(y & Hy & ?)]; [by left|].
           right. exists y. split; [by apply list_elem_of_further|done].
        -- intros [?|(y & [->|Hy]%elem_of_cons & -> & ?)];
             [by left|by left|].
           right. by exists y.
    + rewrite IH. split.
      * intros [?|(y & Hy & ?)]; [by left|].
        right. exists y. split; [by apply list_elem_of_further|done].
      * intros [?|(y & [->|Hy]%elem_of_cons & -> & ? & ?)];
          [by left|congruence|].
        right. by exists y.
Qed.

(** X14.  The candidates of an index are exactly the urls found in its
    body (values of [href] attributes and bare urls), cleaned of white
    space around them and of closing parentheses at the end, that start
    with [http] and with the origin of the index; none is listed
    twice. *)
Theorem available_urls_spec (d body : string) :
  NoDup (available_urls_of d body)
  ∧ ∀ u, u ∈ available_urls_of d body ↔
         ∃ x, (x ∈ Re.findall Re.href body ∨ x ∈ Re.findall Re.http_url body)
              ∧ u = cleaned x
              ∧ Py.startswith u "http" = true
              ∧ Py.startswith u d = true.
Proof.
  split; [apply collect_urls_NoDup, NoDup_nil_2|].
  intros u. unfold available_urls_of. rewrite collect_urls_spec. split.
  - intros [?%not_elem_of_nil|(x & Hx%elem_of_app & ?)]; [done|]. by exists x.
  - intros (x & Hx & ?). right. exists x. split; [by apply elem_of_app|done].
Qed.

Section DiscoveryAnswers.
Variable L : Library.

Lemma filter_no_match (query : string) (l : list string) :
  (∀ u, u ∈ l → Py.contains query u = false) →
  filter (λ url, Py.contains query url = true) l = [].
Proof.
  induction l as [|x l IH]; intros Hl; [done|].
  rewrite filter_cons_False
    by (rewrite (Hl x); [done|apply list_elem_of_here]).
  apply IH. intros u Hu. by apply Hl, list_elem_of_further.
Qed.

(** X15.  [query_external_docs_smart] fetches no document unless the
    query starts with a slash or with [http] and some candidate contains
    it: when the index is fetched and the query is free text, or no
    candidate contains the query, the only GET is that of the index and
    the answer lists candidates (all of them for free text; the first
    ten, with a mark if there are more, for a query without match). *)
Theorem query_without_match (index query : string) (w : World) (r : Registry)
    (resp : response) (d : string) :
  http_get w [] index = inr resp →
  status_error resp = None →
  extract_domain L index = inr d →
  path_like query = false
  ∨ (∀ u, u ∈ available_urls_of d (text resp) → Py.contains query u = false) →
  run (query_external_docs_smart L index query) w r
  = (inr (candidates_answer index query (available_urls_of d (text resp))),
     r, [EvGet index]).
Proof.
  intros Hg Hs Hd Hq.
  rewrite (run_query_external_docs_smart L index query w r resp d Hg Hs Hd).
  unfold smart_answer, first_match.
  destruct Hq as [->|Hq]; [done|].
  rewrite filter_no_match by done. by destruct (path_like query).
Qed.

(** X16.  When the query starts with a slash or with [http],
    [query_external_docs_smart] chooses the first candidate, in the
    order of the index, that contains the query, and no other, and ends
    as [documentation_from] says.  If httpx accepts the candidate, the
    events are the GET of the index and then the GET of that candidate,
    and the answer is its converted body under a header, or the text of
    the HTTP failure; if httpx refuses it, the GET of the index is the
    only event and the answer is the text of the last clause of the
    tool, with the message of the refusal. *)
Theorem query_first_match_fetched (index query : string) (w : World)
    (r : Registry) (resp : response) (d target : string)
    (before later : list string) :
  http_get w [] index = inr resp →
  status_error resp = None →
  extract_domain L index = inr d →
  path_like query = true →
  available_urls_of d (text resp) = before ++ target :: later →
  (∀ u, u ∈ before → Py.contains query u = false) →
  Py.contains query target = true →
  run (query_external_docs_smart L index query) w r
  = (inr (fst (documentation_from L w index target)), r,
     snd (documentation_from L w index target)).
Proof.
  intros Hg Hs Hd Hp Hu Hbefore Htarget.
  rewrite (run_query_external_docs_smart L index query w r resp d Hg Hs Hd).
  unfold smart_answer, first_match. rewrite Hp, Hu.
  rewrite filter_app, (filter_no_match _ _ Hbefore).
  by rewrite filter_cons_True by done.
Qed.

Lemma format_urls_occurs (d : string) (i : nat) (urls : list string) (u : string) :
  u ∈ urls →
  occurs_in ("    URL: " +:+ u +:+ nl +:+ nl) (format_urls d i urls).
Proof.
  revert i. induction urls as [|x urls IH]; intros i;
    [by intros ?%not_elem_of_nil|].
  intros [->|Hu]%elem_of_cons; simpl.
  - do 4 apply occurs_in_app_r.
    exists "", (format_urls d (S i) urls).
    by rewrite app_empty_l, !app_assoc_s.
  - do 8 apply occurs_in_app_r. by apply IH.
Qed.

(** X17.  When the index is fetched, [list_external_docs] makes that one
    GET and returns the listing of the candidates: the text for no
    candidate when there is none, and otherwise a text that gives the
    number of candidates and the url of each one. *)
Theorem list_external_docs_lists_all (index : string) (w : World)
    (r : Registry) (resp : response) (d : string) :
  http_get w [] index = inr resp →
  status_error resp = None →
  extract_domain L index = inr d →
  let urls := available_urls_of d (text resp) in
  run (list_external_docs L index) w r
  = (inr (listing index d urls), r, [EvGet index])
  ∧ (urls = [] →
     listing index d urls = "No documentation URLs found in: " +:+ index)
  ∧ (urls ≠ [] →
     occurs_in ("Found " +:+ Py.str_of_nat (length urls)
                +:+ " documentation URLs:")
       (listing index d urls)
     ∧ ∀ u, u ∈ urls →
            occurs_in ("    URL: " +:+ u +:+ nl +:+ nl) (listing index d urls)).
Proof.
  intros Hg Hs Hd urls. split; [|split].
  - by apply run_list_external_docs.
  - by intros ->.
  - intros Hne. unfold listing. destruct urls as [|u0 urls'] eqn:Hu; [done|].
    split.
    + do 7 apply occurs_in_app_r. eexists "", _.
      by rewrite app_empty_l, !app_assoc_s.
    + intros u Hin. do 12 apply occurs_in_app_r.
      by apply occurs_in_app_l, format_urls_occurs.
Qed.
End DiscoveryAnswers.

Lemma query_without_match_witness :
  run (query_external_docs_smart posix "https://x.com/llms.txt" "auth")
    (world_serving "[a](https://x.com/docs/a) https://evil.com/b")
    example_registry
  = (inr (candidates_answer "https://x.com/llms.txt" "auth"
            (available_urls_of "https://x.com/"
               "[a](https://x.com/docs/a) https://evil.com/b")),
     example_registry, [EvGet "https://x.com/llms.txt"]).
Proof.
  apply (query_without_match posix "https://x.com/llms.txt" "auth"
           (world_serving "[a](https://x.com/docs/a) https://evil.com/b")
           example_registry
           {| status_error := None;
              text := "[a](https://x.com/docs/a) https://evil.com/b" |}
           "https://x.com/").
  - reflexivity.
  - reflexivity.
  - reflexivity.
  - left. reflexivity.
Defined.

Lemma query_first_match_fetched_witness :
  run (query_external_docs_smart posix "https://x.com/llms.txt" "/docs")
    (world_serving "https://x.com/intro https://x.com/docs/a https://x.com/docs/b")
    example_registry
  = (inr (fst (documentation_from posix
                 (world_serving "https://x.com/intro https://x.com/docs/a https://x.com/docs/b")
                 "https://x.com/llms.txt" "https://x.com/docs/a")),
     example_registry,
     snd (documentation_from posix
            (world_serving "https://x.com/intro https://x.com/docs/a https://x.com/docs/b")
            "https://x.com/llms.txt" "https://x.com/docs/a")).
Proof.
  apply (query_first_match_fetched posix "https://x.com/llms.txt" "/docs"
           (world_serving "https://x.com/intro https://x.com/docs/a https://x.com/docs/b")
           example_registry
           {| status_error := None;
              text := "https://x.com/intro https://x.com/docs/a https://x.com/docs/b" |}
           "https://x.com/" "https://x.com/docs/a"
           ["https://x.com/intro"] ["https://x.com/docs/b"]).
  - reflexivity.
  - reflexivity.
  - reflexivity.
  - reflexivity.
  - vm_compute. reflexivity.
  - intros u Hu. apply list_elem_of_singleton in Hu as ->. reflexivity.
  - reflexivity.
Defined.

Lemma list_external_docs_lists_all_witness :
  let urls := available_urls_of "https://x.com/"
                "https://x.com/intro https://x.com/docs/a" in
  run (list_external_docs posix "https://x.com/llms.txt")
    (world_serving "https://x.com/intro https://x.com/docs/a") example_registry
  = (inr (listing "https://x.com/llms.txt" "https://x.com/" urls),
     example_registry, [EvGet "https://x.com/llms.txt"])
  ∧ (urls = [] →
     listing "https://x.com/llms.txt" "https://x.com/" urls
     = "No documentation URLs found in: " +:+ "https://x.com/llms.txt")
  ∧ (urls ≠ [] →
     occurs_in ("Found " +:+ Py.str_of_nat (length urls)
                +:+ " documentation URLs:")
       (listing "https://x.com/llms.txt" "https://x.com/" urls)
     ∧ ∀ u, u ∈ urls →
            occurs_in ("    URL: " +:+ u +:+ nl +:+ nl)
              (listing "https://x.com/llms.txt" "https://x.com/" urls)).
Proof.
  apply (list_external_docs_lists_all posix "https://x.com/llms.txt"
           (world_serving "https://x.com/intro https://x.com/docs/a")
           example_registry
           {| status_error := None;
              text := "https://x.com/intro https://x.com/docs/a" |}
           "https://x.com/"); reflexivity.
Defined.

(** ** Origins of the urls under an origin *)

Lemma remove_app (p : ascii → bool) (a b : string) :
  Py.remove p (a +:+ b) = Py.remove p a +:+ Py.remove p b.
Proof.
  induction a as [|x a IH]; [done|]. rewrite app_cons. simpl.
  destruct (p x); [done|]. by rewrite app_cons, IH.
Qed.

Lemma split_netloc_under (netloc rest : string) :
  Py.all (λ c, negb (Url.netloc_delim c)) netloc = true →
  Url.split_netloc ("//" +:+ netloc +:+ String "/" rest) = netloc.
Proof.
  intros H. unfold Url.split_netloc. rewrite startswith_app.
  change (Py.drop 2 ("//" +:+ netloc +:+ String "/" rest))
    with (netloc +:+ String "/" rest).
  by rewrite (span_app_stop Url.netloc_delim netloc rest "/").
Qed.

Section UnderOrigin.
Variable L : Library.

(** What a parse with a scheme tells about the scheme and the netloc. *)
Lemma urlparse_parts (url scheme netloc : string) :
  Url.urlparse L url = inr (scheme, netloc) →
  scheme ≠ "" →
  ∃ c s, scheme = String c s
         ∧ Py.isalpha_ascii c = true
         ∧ Py.all Url.scheme_char scheme = true
         ∧ Py.lower scheme = scheme
         ∧ Py.all (λ c, negb (Url.unsafe_byte c)) netloc = true
         ∧ Py.all (λ c, negb (Url.netloc_delim c)) netloc = true
         ∧ Url.check_brackets L netloc = None
         ∧ Url.checknetloc L netloc = None.
Proof.
  unfold Url.urlparse.
  set (u := Py.remove Url.unsafe_byte (Py.lstrip Url.c0_control_or_space url)).
  assert (Hu : Py.all (λ c, negb (Url.unsafe_byte c)) u = true)
    by apply all_remove.
  destruct (Url.split_scheme u) as [sc rest] eqn:Hs.
  destruct (if Py.startswith rest "//" then _ else _) eqn:Hb; [done|].
  destruct (Url.checknetloc L (Url.split_netloc rest)) eqn:Hn; [done|].
  intros [= -> <-] Hne.
  apply split_scheme_spec in Hs
    as [[-> _]|(c & s & n & Hsch & Hc & Hall & Hlow & ->)]; [done|].
  exists c, s. repeat split; try done.
  - by apply split_netloc_safe, all_drop.
  - apply split_netloc_no_delim.
  - destruct (Py.startswith (Py.drop n u) "//") eqn:Hst; [done|].
    unfold Url.split_netloc. by rewrite Hst.
Qed.

Lemma urlparse_under_origin (url scheme netloc rest : string) :
  Url.urlparse L url = inr (scheme, netloc) →
  scheme ≠ "" →
  Url.urlparse L (scheme +:+ "://" +:+ netloc +:+ "/" +:+ rest)
  = inr (scheme, netloc).
Proof.
  intros Hp Hne.
  destruct (urlparse_parts _ _ _ Hp Hne)
    as (c & s & Hsch & Hc & Hall & Hlow & Hsafe & Hdelim & Hb & Hn).
  unfold Url.urlparse.
  assert (Hstrip : Py.lstrip Url.c0_control_or_space
                     (scheme +:+ "://" +:+ netloc +:+ "/" +:+ rest)
                   = scheme +:+ "://" +:+ netloc +:+ "/" +:+ rest).
  { rewrite Hsch, app_cons. simpl. by rewrite (alpha_not_c0 _ Hc). }
  rewrite Hstrip, !remove_app.
  rewrite (remove_id _ scheme)
    by (by apply (all_impl _ _ _ scheme_char_safe)).
  rewrite (remove_id _ netloc) by done.
  change (Py.remove Url.unsafe_byte "://") with "://".
  change (Py.remove Url.unsafe_byte "/") with "/".
  change (scheme +:+ "://" +:+ netloc +:+ "/" +:+ Py.remove Url.unsafe_byte rest)
    with (scheme +:+ String ":"
            ("//" +:+ netloc +:+ String "/" (Py.remove Url.unsafe_byte rest))).
  rewrite Hsch in Hall, Hlow |- *.
  rewrite (split_scheme_origin _ c s Hc Hall Hlow).
  rewrite split_netloc_under by done.
  by rewrite startswith_app, Hb, Hn.
Qed.

Lemma extract_domain_under (url d rest : string) :
  _is_http_or_https url = true →
  extract_domain L url = inr d →
  extract_domain L (d +:+ rest) = inr d
  ∧ _is_http_or_https (d +:+ rest) = true.
Proof.
  intros Hr (scheme & netloc & Hp & ->)%extract_domain_parse.
  assert (Hne : scheme ≠ "")
    by (destruct (remote_scheme L _ _ _ Hr Hp) as [Hs|Hs]; by rewrite Hs).
  split.
  - unfold extract_domain. rewrite !app_assoc_s.
    by rewrite (urlparse_under_origin url).
  - destruct (remote_scheme L _ _ _ Hr Hp) as [Hs|Hs]; rewrite Hs;
      by rewrite !app_cons.
Qed.

(** X18.  Every url under the origin of a remote url has that origin:
    if [extract_domain(url)] is [d] for a url that starts with [http:]
    or [https:], then [extract_domain(d + rest)] is [d] for every
    [rest], and [d + rest] is remote as well. *)
Theorem extract_domain_under_origin (url d rest : string) :
  _is_http_or_https url = true →
  extract_domain L url = inr d →
  extract_domain L (d +:+ rest) = inr d
  ∧ _is_http_or_https (d +:+ rest) = true.
Proof. apply extract_domain_under. Qed.

(** X19.  The candidates of a remote index have the origin of the
    index, and they pass the origin check of [fetch_docs]: if that
    origin is allowed, or every origin is, then [fetch_docs] hands a
    candidate to httpx, and the call ends as [fetched] says, with the
    outcome of the GET or, for a candidate that httpx refuses, with its
    [InvalidURL]. *)
Theorem candidates_share_origin (index d body u : string) (r : Registry) :
  _is_http_or_https index = true →
  extract_domain L index = inr d →
  u ∈ available_urls_of d body →
  extract_domain L u = inr d
  ∧ _is_http_or_https u = true
  ∧ (d ∈ domains r ∨ "*" ∈ domains r →
     ∀ w, run (fetch_docs L u) w r = fetched L w r u).
Proof.
  intros Hr Hd Hu.
  pose proof (available_urls_same_origin d body u Hu) as Hpre.
  apply startswith_inv in Hpre as [rest ->].
  destruct (extract_domain_under index d rest Hr Hd) as [He Hrem].
  split; [done|]. split; [done|].
  intros Hallowed w. apply fetch_docs_remote_allowed; [done|].
  destruct Hallowed as [Hin|Hw]; [right|by left].
  exists d. split; [done|apply startswith_app].
Qed.
End UnderOrigin.

Lemma extract_domain_under_origin_witness :
  extract_domain posix ("https://example.com/" +:+ "docs/a?x#y")
  = inr "https://example.com/"
  ∧ _is_http_or_https ("https://example.com/" +:+ "docs/a?x#y") = true.
Proof.
  apply (extract_domain_under_origin posix "https://example.com/llms.txt");
    reflexivity.
Defined.

Lemma candidates_share_origin_witness :
  extract_domain posix "https://example.com/docs/a" = inr "https://example.com/"
  ∧ _is_http_or_https "https://example.com/docs/a" = true
  ∧ ("https://example.com/" ∈ domains example_registry
     ∨ "*" ∈ domains example_registry →
     ∀ w, run (fetch_docs posix "https://example.com/docs/a") w example_registry
          = fetched posix w example_registry "https://example.com/docs/a").
Proof.
  apply (candidates_share_origin posix "https://example.com/llms.txt"
           "https://example.com/"
           "[a](https://example.com/docs/a) https://evil.com/b").
  - reflexivity.
  - reflexivity.
  - vm_compute. apply list_elem_of_here.
Defined.

(** ** The description of [fetch_docs] *)

(** X20.  The description that [create_server] gives to [fetch_docs]
    offers local files exactly when some source is local: it mentions
    [file://] urls if and only if a configured source is not remote. *)
Theorem fetch_docs_description_local (sources : list DocSource) :
  occurs_in "file://" (fetch_docs_description sources)
  ↔ ∃ e, e ∈ sources ∧ is_remote e = false.
Proof.
  unfold fetch_docs_description.
  destruct (filter (λ e, is_remote e = false) sources) as [|e l] eqn:Hf.
  - split.
    + intros H%contains_spec. vm_compute in H. discriminate.
    + intros (e & He & Hl).
      assert (e ∈ filter (λ e, is_remote e = false) sources)
        by by apply list_elem_of_filter.
      rewrite Hf in *. by apply not_elem_of_nil in H.
  - split.
    + intros _. exists e.
      assert (He : e ∈ filter (λ e, is_remote e = false) sources)
        by (rewrite Hf; apply list_elem_of_here).
      apply list_elem_of_filter in He as [? ?]. done.
    + intros _. apply contains_spec. vm_compute. reflexivity.
Qed.

(** ** More on the tools together *)

Section Together.
Variable L : Library.

Lemma after_add_sources (name0 url description0 : string) (w : World)
    (r : Registry) :
  refused w url = None →
  validating_error w url = None →
  doc_sources (after L (AddDocSource name0 url description0) w r)
  = doc_sources r ++ [new_source name0 url description0].
Proof.
  intros Hr Hv. unfold after. simpl tool. rewrite run_add_doc_source, Hr, Hv.
  cbn zeta. destruct (_is_http_or_https url); [|done].
  destruct (extract_domain L url); [done|]. by case_bool_decide.
Qed.

(** X21.  Names are not unique: adding the same source twice, each time
    with a url that httpx accepts and a validating GET that succeeds,
    gives two entries, and one [remove_doc_source] of the name then
    removes one of them and leaves the other. *)
Theorem add_twice_remove_once (name0 url description0 : string)
    (w1 w2 w3 : World) (r : Registry) :
  (∀ e, e ∈ doc_sources r → name e ≠ Some name0) →
  refused w1 url = None →
  validating_error w1 url = None →
  refused w2 url = None →
  validating_error w2 url = None →
  let r2 := after L (AddDocSource name0 url description0) w2
              (after L (AddDocSource name0 url description0) w1 r) in
  doc_sources r2
  = doc_sources r ++ [new_source name0 url description0;
                      new_source name0 url description0]
  ∧ doc_sources (after L (RemoveDocSource name0) w3 r2)
    = doc_sources r ++ [new_source name0 url description0].
Proof.
  intros Hfresh Hr1 Hv1 Hr2 Hv2 r2.
  assert (Hs : doc_sources r2
               = doc_sources r ++ new_source name0 url description0
                   :: [new_source name0 url description0]).
  { subst r2. rewrite !after_add_sources by done. by rewrite <- app_assoc. }
  split; [done|]. unfold after at 1. simpl tool.
  by rewrite (run_remove_first name0 w3 r2 _ _ _ Hs Hfresh eq_refl).
Qed.

(** X22.  When the GET of the index fails, in transport or by its
    status, each discovery tool returns its error text with the message
    of the failure, makes no other GET and leaves the registry. *)
Theorem discovery_index_failure (index query m : string) (w : World)
    (r : Registry) :
  validating_error w index = Some m →
  run (query_external_docs_smart L index query) w r
  = (inr ("Error fetching documentation: " +:+ m), r, [EvGet index])
  ∧ run (list_external_docs L index) w r
    = (inr ("Error fetching llms.txt file: " +:+ m), r, [EvGet index]).
Proof.
  unfold validating_error. intros Hv.
  unfold run, query_external_docs_smart, list_external_docs, try_except,
    fetch_index, mbind, M_bind, httpx_get, raise_for_status. simpl.
  destruct (http_get w [] index) as [[m'|m']|resp];
    [done|by injection Hv as ->|].
  simpl. by rewrite Hv.
Qed.

(** X24.  A url that httpx refuses reaches no server, and only
    [fetch_docs] raises on it: [add_doc_source] answers with its last
    error text and adds nothing, the two discovery tools answer with
    their last error text, and [fetch_docs], if the url is remote and
    passes the origin check, lets the [InvalidURL] escape.  No request
    is made and the registry stays. *)
Theorem refused_url_answers (url query name0 description0 m : string)
    (w : World) (r : Registry) :
  refused w url = Some m →
  run (add_doc_source L name0 url description0) w r
  = (inr ("Error adding documentation source: " +:+ m), r, [])
  ∧ run (query_external_docs_smart L url query) w r
    = (inr ("Unexpected error: " +:+ m), r, [])
  ∧ run (list_external_docs L url) w r
    = (inr ("Unexpected error: " +:+ m), r, [])
  ∧ (_is_http_or_https url = true →
     "*" ∈ domains r ∨ (∃ d, d ∈ domains r ∧ Py.startswith url d = true) →
     run (fetch_docs L url) w r = (inl (InvalidURL m), r, [])).
Proof.
  intros Hr. split; [by rewrite run_add_doc_source, Hr|].
  assert (Hg : http_get w [] url = inl (UrlRefused m)).
  { revert Hr. unfold refused.
    destruct (http_get w [] url) as [[m'|m']|resp]; [|done..].
    by intros [= ->]. }
  split; [|split].
  - unfold run, query_external_docs_smart, try_except, fetch_index, mbind,
      M_bind, httpx_get. simpl. by rewrite Hg.
  - unfold run, list_external_docs, try_except, fetch_index, mbind,
      M_bind, httpx_get. simpl. by rewrite Hg.
  - intros Hu Hok. rewrite (fetch_docs_remote_allowed L w r url Hu Hok).
    unfold fetched. by rewrite Hg.
Qed.

(** X23.  A local source given to [create_server] stays readable: in
    every registry reached from the construction, also after the source
    was removed, [fetch_docs] on its reference opens its normalized path
    and returns the converted content, or the text of the read
    failure. *)
Theorem configured_local_source_fetchable (w0 w : World)
    (sources : list DocSource) (allowed_domains : option (list string))
    (r0 r : Registry) (e : DocSource) :
  create_server L w0 sources allowed_domains = inr r0 →
  reachable L r0 r →
  e ∈ sources →
  is_remote e = false →
  run (fetch_docs L (llms_txt e)) w r
  = (inr match read_file w [] (_normalize_path L (llms_txt e)) with
         | inl m => "Error reading local file: " +:+ m
         | inr content => markdownify L content
         end,
     r, [EvOpen (_normalize_path L (llms_txt e))]).
Proof.
  intros Hc Hreach He Hl. apply fetch_docs_local_allowed; [done|].
  rewrite (reachable_local_files L _ _ Hreach).
  revert Hc. unfold create_server.
  destruct (verify_local L w0 _); [done|].
  destruct (extract_domains L _); [done|].
  intros [= <-]. cbn [allowed_local_files].
  apply elem_of_list_to_set, list_elem_of_fmap. exists e.
  split; [done|by apply list_elem_of_filter].
Qed.
End Together.

Lemma add_twice_remove_once_witness :
  let r2 := after posix (AddDocSource "Other" "https://other.org/llms.txt" "")
              (world_serving "")
              (after posix (AddDocSource "Other" "https://other.org/llms.txt" "")
                 (world_serving "") example_registry) in
  doc_sources r2
  = doc_sources example_registry
    ++ [new_source "Other" "https://other.org/llms.txt" "";
        new_source "Other" "https://other.org/llms.txt" ""]
  ∧ doc_sources (after posix (RemoveDocSource "Other") world_offline r2)
    = doc_sources example_registry
      ++ [new_source "Other" "https://other.org/llms.txt" ""].
Proof.
  apply (add_twice_remove_once posix "Other" "https://other.org/llms.txt" ""
           (world_serving "") (world_serving "") world_offline
           example_registry).
  - intros e He.
    apply elem_of_cons in He as [->|He]; [discriminate|].
    apply list_elem_of_singleton in He as ->. discriminate.
  - reflexivity.
  - reflexivity.
  - reflexivity.
  - reflexivity.
Defined.

Lemma discovery_index_failure_witness :
  run (query_external_docs_smart posix "https://x.com/llms.txt" "/docs")
    world_not_found example_registry
  = (inr ("Error fetching documentation: " +:+ "Client error '404 Not Found'"),
     example_registry, [EvGet "https://x.com/llms.txt"])
  ∧ run (list_external_docs posix "https://x.com/llms.txt") world_not_found
      example_registry
    = (inr ("Error fetching llms.txt file: " +:+ "Client error '404 Not Found'"),
       example_registry, [EvGet "https://x.com/llms.txt"]).
Proof.
  apply (discovery_index_failure posix "https://x.com/llms.txt" "/docs"
           "Client error '404 Not Found'" world_not_found example_registry).
  reflexivity.
Defined.

Lemma refused_url_answers_witness :
  let url := "https://example.com/llms.txt" +:+ nl in
  let m := "Invalid non-printable ASCII character in URL" in
  run (add_doc_source posix "X" url "") (world_checking "") example_registry
  = (inr ("Error adding documentation source: " +:+ m), example_registry, [])
  ∧ run (query_external_docs_smart posix url "/docs") (world_checking "")
      example_registry
    = (inr ("Unexpected error: " +:+ m), example_registry, [])
  ∧ run (list_external_docs posix url) (world_checking "") example_registry
    = (inr ("Unexpected error: " +:+ m), example_registry, [])
  ∧ (_is_http_or_https url = true →
     "*" ∈ domains example_registry
     ∨ (∃ d, d ∈ domains example_registry ∧ Py.startswith url d = true) →
     run (fetch_docs posix url) (world_checking "") example_registry
     = (inl (InvalidURL m), example_registry, [])).
Proof.
  apply (refused_url_answers posix ("https://example.com/llms.txt" +:+ nl)
           "/docs" "X" "" "Invalid non-printable ASCII character in URL"
           (world_checking "") example_registry).
  reflexivity.
Defined.

Lemma configured_local_source_fetchable_witness :
  let r := after posix (RemoveDocSource "Example") world_offline example_registry in
  run (fetch_docs posix (llms_txt local_source)) (world_serving "# Docs") r
  = (inr match read_file (world_serving "# Docs") []
                 (_normalize_path posix (llms_txt local_source)) with
         | inl m => "Error reading local file: " +:+ m
         | inr content => markdownify posix content
         end,
     r, [EvOpen (_normalize_path posix (llms_txt local_source))]).
Proof.
  apply (configured_local_source_fetchable posix (world_serving "")
           (world_serving "# Docs") [example_source; local_source] None
           example_registry).
  - vm_compute. reflexivity.
  - apply reachable_call; [apply reachable_init|exact I].
  - apply list_elem_of_further, list_elem_of_here.
  - reflexivity.
Defined.
